(** * zfit constraints: a shallow embedding of [zfit/core/constraint.py]

    The module defines penalty terms ("constraints") of a likelihood fit:
    [BaseConstraint], [SimpleConstraint], [SamplableConstraint],
    [DistributionConstraint] and [GaussianConstraint].

    Python objects are attribute records that [__init__] fills in, so the
    methods below run in a state-and-exception monad whose state is the
    object [self] together with the world around it (current parameter
    values, the allocator of object identities, the random source of the
    numeric backend).  The numeric backend (TensorFlow and TensorFlow
    Probability) is an interface, [Backend]; its instance in exact real
    arithmetic, [Ideal.backend], follows the classes. *)

From Stdlib Require Import String List Reals Lra Lia DecimalString DecimalNat.
From stdpp Require Import base option list gmap strings.

Set Default Proof Using "Type".
Local Open Scope nat_scope.

(** ** Exceptions *)

Inductive exn : Type :=
| ShapeIncompatibleError (msg : string)
| NotImplementedError
| AttributeError (attr : string)
| TypeError (msg : string)
| IndexError (msg : string)
| InvalidArgumentError (msg : string).

(** ** A state-and-exception monad

    [ST S A] is a computation that reads and writes a state [S] and either
    returns an [A] or raises; the state reached when an exception is raised
    is kept, as in Python. *)

Definition ST (S A : Type) : Type := S -> (exn + A) * S.

#[export] Instance ST_ret {S} : MRet (ST S) :=
  fun A a s => (inr a, s).

#[export] Instance ST_bind {S} : MBind (ST S) :=
  fun A B f m s =>
    match m s with
    | (inr a, s') => f a s'
    | (inl e, s') => (inl e, s')
    end.

Definition raise {S A} (e : exn) : ST S A := fun s => (inl e, s).
Definition gets {S A} (f : S -> A) : ST S A := fun s => (inr (f s), s).
Definition modify {S} (f : S -> S) : ST S unit := fun s => (inr tt, f s).
Definition of_result {S A} (r : exn + A) : ST S A := fun s => (r, s).

(** ** Text formatting: [str(int)] and f-strings *)

Definition str_nat (n : nat) : string :=
  NilEmpty.string_of_uint (Nat.to_uint n).

(** [str] of a TensorFlow shape prints it like a tuple: [()], [(3,)],
    [(2, 2)]. *)
Fixpoint join_comma (l : list string) : string :=
  match l with
  | [] => ""
  | [s] => s
  | s :: rest => s +:+ ", " +:+ join_comma rest
  end.

Definition str_shape (shape : list nat) : string :=
  match shape with
  | [d] => "(" +:+ str_nat d +:+ ",)"
  | _ => "(" +:+ join_comma (map str_nat shape) +:+ ")"
  end.

(** ** Python dictionaries

    A [dict] keeps its keys in insertion order; assigning to a key that is
    present replaces the value in place, so that no key occurs twice.  Keys
    are compared with [key_eqb]: text by content, objects by identity. *)

Class PyKey (K : Type) := key_eqb : K -> K -> bool.

#[export] Instance string_PyKey : PyKey string := String.eqb.

Definition pydict (K V : Type) : Type := list (K * V).

Fixpoint dict_set {K V} `{PyKey K} (d : pydict K V) (k : K) (v : V) : pydict K V :=
  match d with
  | [] => [(k, v)]
  | (k', v') :: rest =>
      if key_eqb k' k then (k', v) :: rest else (k', v') :: dict_set rest k v
  end.

Fixpoint dict_get {K V} `{PyKey K} (d : pydict K V) (k : K) : option V :=
  match d with
  | [] => None
  | (k', v') :: rest => if key_eqb k' k then Some v' else dict_get rest k
  end.

Definition dict_len {K V} (d : pydict K V) : nat := length d.
Definition dict_keys {K V} (d : pydict K V) : list K := map fst d.
Definition dict_values {K V} (d : pydict K V) : list V := map snd d.

(** A dict display or comprehension inserts its items from left to right. *)
Definition dict_of_items {K V} `{PyKey K} (items : list (K * V)) : pydict K V :=
  fold_left (fun d kv => dict_set d kv.1 kv.2) items [].

(** ** Parameters *)

(** A [zfit.Parameter]: a named object; [p_id] is its identity. Its current
    value lives in the world. *)
Record ZfitParameter : Type := { p_id : nat; p_name : string }.

#[export] Instance ZfitParameter_eq_dec : EqDecision ZfitParameter.
Proof. solve_decision. Defined.

#[export] Instance ZfitParameter_countable : Countable ZfitParameter.
Proof.
  refine (inj_countable' (fun p => (p_id p, p_name p))
                         (fun t => {| p_id := t.1; p_name := t.2 |}) _).
  by intros [].
Defined.

(** ** Containers *)

(** An argument that is one item or a sequence of items. *)
Inductive Container (A : Type) : Type :=
| Single (a : A)
| Sequence (l : list A).
Arguments Single {A} _.
Arguments Sequence {A} _.

(** Modelled from the spec: [convert_to_container] of [zfit/util/container.py],
    which is not among the sources.  One item becomes a container of that
    item, a sequence keeps its items in order. *)
Definition convert_to_container {A} (value : Container A) : list A :=
  match value with
  | Single a => [a]
  | Sequence l => l
  end.

(** ** Tensors

    A tensor is its shape and its entries in row-major order. *)
Record Tensor (F : Type) : Type := { t_shape : list nat; t_data : list F }.
Arguments t_shape {F} _.
Arguments t_data {F} _.

Definition ndims {F} (t : Tensor F) : nat := length (t_shape t).

Definition numel (shape : list nat) : nat := foldr Nat.mul 1 shape.

Definition scalar {F} (v : F) : Tensor F := {| t_shape := []; t_data := [v] |}.
Definition vector {F} (l : list F) : Tensor F := {| t_shape := [length l]; t_data := l |}.

(** [t.shape[i]] *)
Definition dim {F} (t : Tensor F) (i : nat) : exn + nat :=
  match t_shape t !! i with
  | Some d => inr d
  | None => inl (IndexError "list index out of range")
  end.

(** [tf.reshape(t, shape)]: the same entries under a shape with as many
    entries. *)
Definition tf_reshape {F} (t : Tensor F) (shape : list nat) : exn + Tensor F :=
  if numel shape =? numel (t_shape t)
  then inr {| t_shape := shape; t_data := t_data t |}
  else inl (InvalidArgumentError "Input to reshape has a different number of values").

(** [t[:, i]]: the entries whose second index is [i]. *)
Definition column {F} (dflt : F) (t : Tensor F) (i : nat) : exn + Tensor F :=
  match t_shape t with
  | n :: m :: rest =>
      if i <? m then
        let k := numel rest in
        inr {| t_shape := n :: rest;
               t_data := flat_map (fun r => map (fun j => nth (r * m * k + i * k + j) (t_data t) dflt)
                                                (seq 0 k))
                                  (seq 0 n) |}
      else inl (InvalidArgumentError "slice index out of bounds")
  | _ => inl (InvalidArgumentError "Index out of range using input dim 1")
  end.

(** The entry in row [i], column [j] of a matrix with [m] columns. *)
Definition entry {F} (dflt : F) (t : Tensor F) (i j : nat) : F :=
  match t_shape t with
  | _ :: m :: _ => nth (i * m + j) (t_data t) dflt
  | _ => dflt
  end.

(** ** The numeric backend

    What the module asks of TensorFlow and TensorFlow Probability on single
    entries and on the multivariate normal distribution:
    - [zero], the off-diagonal entry written by [tf.linalg.tensor_diag];
    - [square v], one entry of [z.pow(t, 2.)];
    - [negate v], one entry of [-t];
    - [mvn_check loc cov validate_args], the argument checks made when a
      [MultivariateNormalFullCovariance] is built;
    - [mvn_log_prob loc cov x], the log-density [log N(x; loc, cov)];
    - [mvn_sample loc cov seed n], [n] joint draws as an [n] x [N] tensor. *)
Class Backend (F : Type) : Type := {
  zero : F;
  square : F -> F;
  negate : F -> F;
  mvn_check : Tensor F -> Tensor F -> bool -> exn + unit;
  mvn_log_prob : Tensor F -> Tensor F -> Tensor F -> exn + Tensor F;
  mvn_sample : Tensor F -> Tensor F -> nat -> nat -> exn + Tensor F
}.

Inductive DType : Type := float64.

(** [ztypes.float] of [zfit.settings]. *)
Definition ztypes_float : DType := float64.

Section Constraint.
Context {F : Type} `{!Backend F}.

(** *** The world outside the constraint *)

Record World : Type := {
  param_value : nat -> F;   (* current value of the parameter with that identity *)
  next_id : nat;            (* identity of the next object to be created *)
  rng : nat                 (* state of the backend's random source *)
}.

Abbreviation WorldM := (ST World).

(** [param.set_value(v)], done by the caller between evaluations. *)
Definition set_value (p : ZfitParameter) (v : F) (w : World) : World :=
  {| param_value := fun i => if i =? p_id p then v else param_value w i;
     next_id := next_id w;
     rng := rng w |}.

Definition fresh_id : WorldM nat :=
  fun w => (inr (next_id w),
            {| param_value := param_value w; next_id := S (next_id w); rng := rng w |}).

(** A number as callers supply it: a literal, or a parameter read when
    the number is needed. *)
Inductive Numerical : Type :=
| Number (v : F)
| Param (p : ZfitParameter).

Definition numerical_value (w : World) (a : Numerical) : F :=
  match a with
  | Number v => v
  | Param p => param_value w (p_id p)
  end.

(** An array-like argument ([sigma]): a number, a list of numbers, a nested
    list or an array, given by its shape and its items in row-major order. *)
Record ArrayLike : Type := { a_shape : list nat; a_items : list Numerical }.

(** [z.convert_to_tensor(a)]: the items are read now. *)
Definition convert_to_tensor (a : ArrayLike) : WorldM (Tensor F) :=
  gets (fun w => {| t_shape := a_shape a; t_data := map (numerical_value w) (a_items a) |}).

(** [z.pow(t, 2.)] *)
Definition z_pow2 (t : Tensor F) : Tensor F :=
  {| t_shape := t_shape t; t_data := map square (t_data t) |}.

(** [-t] *)
Definition tensor_neg (t : Tensor F) : Tensor F :=
  {| t_shape := t_shape t; t_data := map negate (t_data t) |}.

(** [tf.linalg.tensor_diag(t)]: shape [t.shape + t.shape], the entries of [t]
    on the diagonal and zero elsewhere. *)
Definition tensor_diag (t : Tensor F) : Tensor F :=
  let n := numel (t_shape t) in
  {| t_shape := t_shape t ++ t_shape t;
     t_data := flat_map (fun i => map (fun j => if i =? j then nth i (t_data t) zero else zero)
                                      (seq 0 n))
                        (seq 0 n) |}.

(** *** Observed-value holders *)

(** The holder of one observed value: an object of its own, named, that
    wraps the number it was made from. *)
Record Holder : Type := { h_id : nat; h_name : string; h_source : Numerical }.

#[export] Instance Holder_PyKey : PyKey Holder :=
  fun a b => h_id a =? h_id b.

(** Modelled from the spec: [convert_to_parameter] of [zfit/core/parameter.py],
    which is not among the sources.  It makes a parameter-like holder with
    the given name out of a literal or of a reference to a numeric source. *)
Definition convert_to_parameter (value : Numerical) (name : string) : WorldM Holder :=
  i ← fresh_id;
  mret {| h_id := i; h_name := name; h_source := value |}.

(** [z.convert_to_tensor(x)] of one holder. *)
Definition holder_value (w : World) (h : Holder) : F :=
  numerical_value w (h_source h).

(** *** Distributions of the backend *)

(** A keyword argument passed to a distribution class. *)
Inductive Arg : Type :=
| ATensor (t : Tensor F)
| AParams (ps : list ZfitParameter)
| ABool (b : bool)
| AStr (s : string).

(** A distribution instance: an object with an identity and the two methods
    the module calls. *)
Record Distribution : Type := {
  d_id : nat;
  log_prob : Tensor F -> WorldM (Tensor F);
  d_sample : nat -> WorldM (Tensor F)
}.

(** A distribution class, called with keyword arguments. *)
Definition Factory : Type := pydict string Arg -> WorldM Distribution.

(** The keywords of a call are gathered from left to right, from the
    dicts that are unpacked and from the keywords written out; Python
    refuses a keyword that is given twice. *)
Definition add_keywords (kw more : pydict string Arg) : exn + pydict string Arg :=
  if existsb (fun k => bool_decide (is_Some (dict_get kw k))) (dict_keys more)
  then inl (TypeError "got multiple values for keyword argument")
  else inr (kw ++ more).

(** An instance of the multivariate normal with its arguments bound. *)
Definition mvn_instance (i : nat) (loc cov : Tensor F) : Distribution :=
  {| d_id := i;
     log_prob := fun x => of_result (mvn_log_prob loc cov x);
     d_sample := fun n w =>
       (mvn_sample loc cov (rng w) n,
        {| param_value := param_value w; next_id := next_id w; rng := S (rng w) |}) |}.

(** [tfd.MultivariateNormalFullCovariance(loc=..., covariance_matrix=...,
    validate_args=..., name=...)]: the arguments are bound by value: a
    [loc] given as parameters is read when the instance is built. *)
Definition MultivariateNormalFullCovariance : Factory :=
  fun kw =>
    match dict_get kw "loc", dict_get kw "covariance_matrix" with
    | Some loc, Some (ATensor cov) =>
        loc ← match loc with
              | AParams ps =>
                  convert_to_tensor {| a_shape := [length ps]; a_items := map Param ps |}
              | ATensor t => mret t
              | _ => raise (TypeError "loc")
              end;
        let validate_args := match dict_get kw "validate_args" with
                             | Some (ABool b) => b
                             | _ => false
                             end in
        of_result (mvn_check loc cov validate_args);;
        i ← fresh_id;
        mret (mvn_instance i loc cov)
    | _, _ => raise (TypeError "loc and covariance_matrix are required")
    end.

(** *** Objects

    An object is its class and the attributes assigned so far.  Attributes
    that one [__init__] assigns together form one layer; a layer that is
    still [None] has not been assigned, and reading it raises
    [AttributeError]. *)

Inductive Class : Type :=
| cls_BaseConstraint
| cls_SimpleConstraint
| cls_SamplableConstraint
| cls_DistributionConstraint
| cls_GaussianConstraint.

(** What [dist_params] and [dist_kwargs] may hold: a dict, a callable of
    the caller, or the lambda that [GaussianConstraint.__init__] builds,
    [lambda: dict(loc=mu, covariance_matrix=self.covariance)], kept as the
    [mu] it captured. *)
Inductive Provider : Type :=
| Mapping (d : pydict string Arg)
| Callable (f : WorldM (pydict string Arg))
| GaussianDistParams (mu : list ZfitParameter).

(** The lambda [lambda: create_covariance(mu, sigma)], kept as what it
    captured. *)
Record CovarianceClosure : Type := { cc_mu : list ZfitParameter; cc_sigma : ArrayLike }.

Record BaseFields : Type := {
  b_name : string;
  b_dtype : DType;
  b_params : pydict string ZfitParameter
}.

Record SimpleFields : Type := {
  _simple_func : WorldM (Tensor F);
  _simple_func_dependents : list ZfitParameter
}.

Record DistributionFields : Type := {
  _distribution : Factory;
  dist_params : Provider;
  dist_kwargs : Provider
}.

Record GaussianFields : Type := {
  _mu : list ZfitParameter;
  _covariance : CovarianceClosure
}.

Record Obj : Type := {
  cls : Class;
  base : option BaseFields;
  simple : option SimpleFields;
  _x : option (list Holder);
  dist : option DistributionFields;
  gauss : option GaussianFields
}.

Definition empty_obj (c : Class) : Obj :=
  {| cls := c; base := None; simple := None; _x := None; dist := None; gauss := None |}.

Definition set_base (v : BaseFields) (o : Obj) : Obj :=
  {| cls := cls o; base := Some v; simple := simple o; _x := _x o; dist := dist o; gauss := gauss o |}.
Definition set_simple (v : SimpleFields) (o : Obj) : Obj :=
  {| cls := cls o; base := base o; simple := Some v; _x := _x o; dist := dist o; gauss := gauss o |}.
Definition set_x (v : list Holder) (o : Obj) : Obj :=
  {| cls := cls o; base := base o; simple := simple o; _x := Some v; dist := dist o; gauss := gauss o |}.
Definition set_dist (v : DistributionFields) (o : Obj) : Obj :=
  {| cls := cls o; base := base o; simple := simple o; _x := _x o; dist := Some v; gauss := gauss o |}.
Definition set_gauss (v : GaussianFields) (o : Obj) : Obj :=
  {| cls := cls o; base := base o; simple := simple o; _x := _x o; dist := dist o; gauss := Some v |}.

(** Methods run on [self] and the world. *)
Abbreviation M := (ST (Obj * World)).

(** A computation that does not touch [self]. *)
Definition lift {A} (m : WorldM A) : M A :=
  fun s => let (r, w') := m s.2 in (r, (s.1, w')).

(** [self.attr = v] *)
Definition assign (f : Obj -> Obj) : M unit :=
  modify (fun s => (f s.1, s.2)).

(** [self.attr] *)
Definition attr {L A} (layer : Obj -> option L) (field : L -> A) (attr_name : string) : M A :=
  fun s =>
    match layer s.1 with
    | Some l => (inr (field l), s)
    | None => (inl (AttributeError attr_name), s)
    end.

(** Calling a class: a new object, then [__init__] on it. *)
Definition new (c : Class) (init : M unit) : WorldM Obj :=
  fun w =>
    match init (empty_obj c, w) with
    | (inr _, (self, w')) => (inr self, w')
    | (inl e, (_, w')) => (inl e, w')
    end.

(** *** BaseNumeric *)

(** Modelled from the spec: [BaseNumeric.__init__] of [zfit/core/baseobject.py],
    which is not among the sources.  It keeps the name, the dtype and the
    ordered mapping of slot names to parameters. *)
Definition BaseNumeric_init (name : string) (dtype : DType)
    (params : pydict string ZfitParameter) : M unit :=
  assign (set_base {| b_name := name; b_dtype := dtype; b_params := params |}).

(** Modelled from the spec: the [name] property of [BaseNumeric]. *)
Definition name : M string := attr base b_name "name".

(** Modelled from the spec: [BaseNumeric.get_params], the parameters of the
    [params] mapping in its order. *)
Definition get_params : M (list ZfitParameter) :=
  ps ← attr base b_params "params";
  mret (dict_values ps).

(** Modelled from the spec: [BaseNumeric._extract_dependents], the set of the
    given parameters. *)
Definition _extract_dependents (ps : list ZfitParameter) : M (gset ZfitParameter) :=
  mret (list_to_set ps).

(** *** BaseConstraint *)

Definition BaseConstraint_init (params : pydict string ZfitParameter)
    (name : string) (dtype : DType) : M unit :=
  BaseNumeric_init name dtype params.

Definition BaseConstraint__get_dependents : M (gset ZfitParameter) :=
  ps ← get_params;
  _extract_dependents ps.

(** The slot names [param_0], [param_1], ... in the order of [ps]. *)
Definition param_slots (ps : list ZfitParameter) : list (string * ZfitParameter) :=
  imap (fun i p => ("param_" +:+ str_nat i, p)) ps.

(** *** SimpleConstraint *)

(** [OrderedSet(l)]: the first occurrence of each item, in order. *)
Fixpoint ordered_set (l : list ZfitParameter) : list ZfitParameter :=
  match l with
  | [] => []
  | p :: rest => p :: filter (fun q => q <> p) (ordered_set rest)
  end.

Definition SimpleConstraint_init (func : WorldM (Tensor F))
    (params : Container ZfitParameter) : M unit :=
  assign (set_simple {| _simple_func := func;
                        _simple_func_dependents := ordered_set (convert_to_container params) |});;
  let params := convert_to_container params in
  let params := dict_of_items (param_slots params) in
  BaseConstraint_init params "SimpleConstraint" ztypes_float.

Definition SimpleConstraint__value : M (Tensor F) :=
  func ← attr simple _simple_func "_simple_func";
  lift func.

(** *** SamplableConstraint *)

Definition SamplableConstraint_init (x : Container Numerical)
    (params : pydict string ZfitParameter) (name : string) (dtype : DType) : M unit :=
  BaseConstraint_init params name dtype;;
  let x := convert_to_container x in
  if negb (length x =? dict_len params) then
    raise (ShapeIncompatibleError
             ("x and params have to be the same lenght. Currently" +:+
              "x: " +:+ str_nat (length x) +:+ ", params: " +:+ str_nat (dict_len params)))
  else
    x ← mapM (fun xp => lift (convert_to_parameter xp.1 (p_name xp.2 +:+ "_obs")))
             (zip x (dict_values params));
    assign (set_x x).

Definition x : M (list Holder) := attr _x (fun l => l) "_x".

Definition _x_array : M (Tensor F) :=
  xs ← x;
  lift (gets (fun w => vector (map (holder_value w) xs))).

Definition SamplableConstraint__get_dependents : M (gset ZfitParameter) :=
  ps ← get_params;
  _extract_dependents ps.

(** *** GaussianConstraint: the covariance *)

(** The closure [create_covariance(mu, sigma)] of
    [GaussianConstraint.__init__]; it reads [self._x_array] when it runs. *)
Definition create_covariance (mu : list ZfitParameter) (sigma : ArrayLike) : M (Tensor F) :=
  mu ← lift (convert_to_tensor {| a_shape := [length mu]; a_items := map Param mu |});
  sigma ← lift (convert_to_tensor sigma);
  x_tensor ← _x_array;
  covariance ←
    (if 1 <? ndims sigma then mret sigma
     else if ndims sigma =? 1 then mret (tensor_diag (z_pow2 sigma))
     else
       sigma ← of_result (tf_reshape sigma [1]);
       mret (tensor_diag (z_pow2 sigma)));
  (* x_tensor.shape[0] == mu.shape[0] == covariance.shape[0] == covariance.shape[1] *)
  x0 ← of_result (dim x_tensor 0);
  m0 ← of_result (dim mu 0);
  agree ←
    (if x0 =? m0 then
       c0 ← of_result (dim covariance 0);
       if m0 =? c0 then
         c1 ← of_result (dim covariance 1);
         mret (c0 =? c1)
       else mret false
     else mret false);
  if negb agree then
    raise (ShapeIncompatibleError
             ("x, mu and sigma have to have the same length. Currently" +:+
              "x: " +:+ str_nat x0 +:+ ", mu: " +:+ str_nat m0 +:+ ", " +:+
              "covariance (from sigma): " +:+ str_shape (take 2 (t_shape covariance))))
  else mret covariance.

Definition mu : M (list ZfitParameter) := attr gauss _mu "_mu".

Definition covariance : M (Tensor F) :=
  c ← attr gauss _covariance "_covariance";
  create_covariance (cc_mu c) (cc_sigma c).

(** *** DistributionConstraint *)

Definition DistributionConstraint_init (x : Container Numerical)
    (params : pydict string ZfitParameter) (distribution : Factory)
    (dist_params : Provider) (dist_kwargs : option Provider)
    (name : string) (dtype : DType) : M unit :=
  SamplableConstraint_init x params name dtype;;
  assign (set_dist {| _distribution := distribution;
                      dist_params := dist_params;
                      dist_kwargs := match dist_kwargs with
                                     | Some k => k
                                     | None => Mapping []
                                     end |}).

(** [callable(p)] *)
Definition callable (p : Provider) : bool :=
  match p with
  | Mapping _ => false
  | Callable _ | GaussianDistParams _ => true
  end.

(** [p()] *)
Definition call (p : Provider) : M (pydict string Arg) :=
  match p with
  | Mapping _ => raise (TypeError "'dict' object is not callable")
  | Callable f => lift f
  | GaussianDistParams mu =>
      cov ← covariance;
      mret (dict_of_items [("loc", AParams mu); ("covariance_matrix", ATensor cov)])
  end.

(** [if callable(p): p = p()], after which [p] is unpacked as a dict. *)
Definition evaluated (p : Provider) : M (pydict string Arg) :=
  if callable p then call p
  else match p with
       | Mapping d => mret d
       | _ => raise (TypeError "argument after ** must be a mapping")
       end.

Definition distribution : M Distribution :=
  params ← attr dist dist_params "dist_params";
  params ← evaluated params;
  kwargs ← attr dist dist_kwargs "dist_kwargs";
  kwargs ← evaluated kwargs;
  factory ← attr dist _distribution "_distribution";
  kw ← of_result (add_keywords params kwargs);
  self_name ← name;
  kw ← of_result (add_keywords kw [("name", AStr (self_name +:+ "_tfp"))]);
  lift (factory kw).

Definition DistributionConstraint__value : M (Tensor F) :=
  d ← distribution;
  x_array ← _x_array;
  value ← lift (log_prob d x_array);
  mret (tensor_neg value).

Definition DistributionConstraint__sample (n : nat) : M (Tensor F) :=
  d ← distribution;
  lift (d_sample d n).

(** *** GaussianConstraint *)

Definition GaussianConstraint_init (x : Container Numerical)
    (mu : Container ZfitParameter) (sigma : ArrayLike) : M unit :=
  let x := convert_to_container x in
  let mu := convert_to_container mu in
  let params_dict := dict_of_items (param_slots mu) in
  assign (set_gauss {| _mu := mu; _covariance := {| cc_mu := mu; cc_sigma := sigma |} |});;
  let distribution := MultivariateNormalFullCovariance in
  let dist_params := GaussianDistParams mu in
  let dist_kwargs := Mapping (dict_of_items [("validate_args", ABool true)]) in
  DistributionConstraint_init (Sequence x) params_dict distribution dist_params
                              (Some dist_kwargs) "GaussianConstraint" ztypes_float.

(** *** Method resolution *)

(** [self._value()] *)
Definition _value : M (Tensor F) :=
  c ← gets (fun s => cls s.1);
  match c with
  | cls_SimpleConstraint => SimpleConstraint__value
  | cls_DistributionConstraint | cls_GaussianConstraint => DistributionConstraint__value
  | cls_BaseConstraint | cls_SamplableConstraint => raise NotImplementedError
  end.

(** [self._sample(n)] *)
Definition _sample (n : nat) : M (Tensor F) :=
  c ← gets (fun s => cls s.1);
  match c with
  | cls_DistributionConstraint | cls_GaussianConstraint => DistributionConstraint__sample n
  | cls_SamplableConstraint => raise NotImplementedError
  | cls_BaseConstraint | cls_SimpleConstraint => raise (AttributeError "_sample")
  end.

(** [self._get_dependents()] *)
Definition _get_dependents : M (gset ZfitParameter) :=
  c ← gets (fun s => cls s.1);
  match c with
  | cls_BaseConstraint | cls_SimpleConstraint => BaseConstraint__get_dependents
  | _ => SamplableConstraint__get_dependents
  end.

(** Modelled from the spec: [BaseNumeric.get_dependents] of
    [zfit/core/baseobject.py], which is not among the sources; it returns
    what [_get_dependents] computes. *)
Definition get_dependents : M (gset ZfitParameter) := _get_dependents.

(** [BaseConstraint.value] and [SamplableConstraint.value] *)
Definition value : M (Tensor F) := _value.

(** [SamplableConstraint.sample] *)
Definition sample (n : nat) : M (pydict Holder (Tensor F)) :=
  sample ← _sample n;
  xs ← x;
  items ← mapM (fun ip => col ← of_result (column zero sample ip.1); mret (ip.2, col))
               (imap pair xs);
  mret (dict_of_items items).

(** *** The classes, called *)

Definition SimpleConstraint (func : WorldM (Tensor F)) (params : Container ZfitParameter)
  : WorldM Obj :=
  new cls_SimpleConstraint (SimpleConstraint_init func params).

Definition DistributionConstraint (x : Container Numerical)
    (params : pydict string ZfitParameter) (distribution : Factory)
    (dist_params : Provider) (dist_kwargs : option Provider) : WorldM Obj :=
  new cls_DistributionConstraint
      (DistributionConstraint_init x params distribution dist_params dist_kwargs
                                   "DistributionConstraint" ztypes_float).

Definition GaussianConstraint (x : Container Numerical) (mu : Container ZfitParameter)
    (sigma : ArrayLike) : WorldM Obj :=
  new cls_GaussianConstraint (GaussianConstraint_init x mu sigma).

End Constraint.

Arguments World F : clear implicits.
Arguments Obj F : clear implicits.
Arguments Holder F : clear implicits.
Arguments Numerical F : clear implicits.
Arguments ArrayLike F : clear implicits.
Arguments Arg F : clear implicits.
Arguments Distribution F : clear implicits.
Arguments Provider F : clear implicits.

(** ** The backend in exact real arithmetic

    Entries are real numbers; the multivariate normal log-density is
    computed the way TensorFlow Probability computes it, from the Cholesky
    factor [L] of the covariance:
    [log N(x; loc, cov) = -(N/2 log(2 pi) + sum_i log L_ii + |L^-1 (x - loc)|^2 / 2)]. *)

Module Ideal.
Local Open Scope R_scope.

Fixpoint dot (a b : list R) : R :=
  match a, b with
  | u :: a', v :: b' => u * v + dot a' b'
  | _, _ => 0
  end.

(** The rows of a matrix with [m] columns, from its entries. *)
Fixpoint rows_of (n m : nat) (data : list R) : list (list R) :=
  match n with
  | O => []
  | S n' => take m data :: rows_of n' m (drop m data)
  end.

(** The entries left of the diagonal in one row of the Cholesky factor:
    [L_ij = (A_ij - sum_(k<j) L_ik L_jk) / L_jj]. *)
Fixpoint chol_left (a : list R) (prev : list (list R)) (acc : list R) : list R :=
  match prev, a with
  | Lj :: prev', aij :: a' =>
      chol_left a' prev' (acc ++ [(aij - dot acc Lj) / List.last Lj 1])
  | _, _ => acc
  end.

(** One row: the entries left of the diagonal, then
    [L_ii = sqrt (A_ii - sum_(k<i) L_ik^2)]. *)
Definition chol_row (a : list R) (prev : list (list R)) : list R :=
  let acc := chol_left a prev [] in
  acc ++ [sqrt (nth (length prev) a 0 - dot acc acc)].

Definition cholesky (A : list (list R)) : list (list R) :=
  fold_left (fun L a => L ++ [chol_row a L]) A [].

(** Forward substitution: the [y] with [L y = b]. *)
Definition forward (L : list (list R)) (b : list R) : list R :=
  fold_left (fun y Lb => y ++ [(Lb.2 - dot y Lb.1) / List.last Lb.1 1]) (zip L b) [].

Fixpoint sum_ln_diag (L : list (list R)) : R :=
  match L with
  | [] => 0
  | Li :: L' => ln (List.last Li 1) + sum_ln_diag L'
  end.

Definition log_normal (loc cov x : Tensor R) : R :=
  let N := length (t_data loc) in
  let L := cholesky (rows_of N N (t_data cov)) in
  let y := forward L (zip_with Rminus (t_data x) (t_data loc)) in
  - (INR N / 2 * ln (2 * PI) + sum_ln_diag L + dot y y / 2).

#[export] Instance backend : Backend R := {|
  zero := 0;
  square := fun v => v * v;
  negate := Ropp;
  mvn_check := fun _ _ _ => inr tt;
  mvn_log_prob := fun loc cov x => inr (scalar (log_normal loc cov x));
  (* no draw is modelled: every row is the mean *)
  mvn_sample := fun loc _ _ n =>
    inr {| t_shape := [n; length (t_data loc)];
           t_data := mjoin (replicate n (t_data loc)) |}
|}.

(** The sum of the one-dimensional normal penalties
    [log(2 pi)/2 + log sigma_i + (x_i - mu_i)^2 / (2 sigma_i^2)]. *)
Fixpoint gaussian_penalties (x mu sigma : list R) : R :=
  match x, mu, sigma with
  | v :: x', m :: mu', s :: sigma' =>
      ln (2 * PI) / 2 + ln s + (v - m) * (v - m) / (2 * (s * s))
      + gaussian_penalties x' mu' sigma'
  | _, _, _ => 0
  end.

End Ideal.

(** ** Closed forms used to state the properties *)

Section Reference.
Context {F : Type} `{!Backend F}.

(** The world after [n] objects were created. *)
Definition advance (n : nat) (w : World F) : World F :=
  {| param_value := param_value w; next_id := n + next_id w; rng := rng w |}.

(** The holders made for the observed values [xs] of the parameters [ps]
    when the next free identity is [first]: one per pair, in order, named
    after the parameter. *)
Definition obs_holders (first : nat) (xs : list (Numerical F)) (ps : list ZfitParameter)
  : list (Holder F) :=
  imap (fun i xp => {| h_id := first + i; h_name := p_name xp.2 +:+ "_obs"; h_source := xp.1 |})
       (zip xs ps).

(** A method leaves [self] as it found it, whatever it returns or raises. *)
Definition preserves_self {A} (m : ST (Obj F * World F) A) : Prop :=
  forall s, (m s).2.1 = s.1.

(** The object that [GaussianConstraint(x, mu, sigma)] returns when the
    next free identity is [first]. *)
Definition gaussian_obj (xs : list (Numerical F)) (mu : list ZfitParameter)
    (sigma : ArrayLike F) (first : nat) : Obj F :=
  {| cls := cls_GaussianConstraint;
     base := Some {| b_name := "GaussianConstraint"; b_dtype := ztypes_float;
                     b_params := param_slots mu |};
     simple := None;
     _x := Some (obs_holders first xs mu);
     dist := Some {| _distribution := MultivariateNormalFullCovariance;
                     dist_params := GaussianDistParams mu;
                     dist_kwargs := Mapping [("validate_args", ABool true)] |};
     gauss := Some {| _mu := mu; _covariance := {| cc_mu := mu; cc_sigma := sigma |} |} |}.

(** [sigma] as a tensor, read in the world [w]. *)
Definition sigma_tensor (w : World F) (sigma : ArrayLike F) : Tensor F :=
  {| t_shape := a_shape sigma; t_data := map (numerical_value w) (a_items sigma) |}.

(** An array-like argument has as many items as its shape says. *)
Definition well_shaped (a : ArrayLike F) : Prop :=
  length (a_items a) = numel (a_shape a).

(** The covariance in the words of the specification: [sigma²] as a 1 x 1
    matrix for a scalar, [diag(sigma_i²)] for a vector, [sigma] itself for
    a matrix. *)
Definition spec_covariance (sigma : Tensor F) : Tensor F :=
  match t_shape sigma with
  | [] => {| t_shape := [1; 1]; t_data := [square (nth 0 (t_data sigma) zero)] |}
  | [n] =>
      {| t_shape := [n; n];
         t_data := flat_map (fun i => map (fun j => if i =? j
                                                    then square (nth i (t_data sigma) zero)
                                                    else zero)
                                          (seq 0 n))
                            (seq 0 n) |}
  | _ => sigma
  end.

(** The covariance that [create_covariance] builds from the tensor of
    [sigma], one case per branch. *)
Definition built_covariance (sigma : Tensor F) : Tensor F :=
  match t_shape sigma with
  | [] => tensor_diag (z_pow2 {| t_shape := [1]; t_data := t_data sigma |})
  | [_] => tensor_diag (z_pow2 sigma)
  | _ => sigma
  end.

(** The two leading dimensions of the covariance built from a [sigma] of the
    given shape. *)
Definition covariance_dims (shape : list nat) : nat * nat :=
  match shape with
  | [] => (1, 1)
  | [n] => (n, n)
  | r :: c :: _ => (r, c)
  end.

(** The chained comparison of [create_covariance]. *)
Definition sizes_agree (nx nmu : nat) (cd : nat * nat) : bool :=
  (nx =? nmu) && (nmu =? cd.1) && (cd.1 =? cd.2).

(** The message of the failure raised by [create_covariance]; it gives the
    length of [x], the length of [mu] and the two dimensions of the
    covariance. *)
Definition sizes_message (nx nmu : nat) (cd : nat * nat) : string :=
  "x, mu and sigma have to have the same length. Currentlyx: " +:+ str_nat nx +:+
  ", mu: " +:+ str_nat nmu +:+ ", covariance (from sigma): " +:+ str_shape [cd.1; cd.2].

(** What [create_covariance] returns or raises, given the lengths of [x]
    and [mu] and the tensor of [sigma]. *)
Definition covariance_result (nx nmu : nat) (t : Tensor F) : exn + Tensor F :=
  if sizes_agree nx nmu (covariance_dims (t_shape t))
  then inr (built_covariance t)
  else inl (ShapeIncompatibleError (sizes_message nx nmu (covariance_dims (t_shape t)))).

(** The message of the failure raised by [SamplableConstraint.__init__]. *)
Definition lengths_message (nx nparams : nat) : string :=
  "x and params have to be the same lenght. Currentlyx: " +:+ str_nat nx +:+
  ", params: " +:+ str_nat nparams.

(** The current values of parameters and of holders, as vectors. *)
Definition params_tensor (w : World F) (ps : list ZfitParameter) : Tensor F :=
  {| t_shape := [length ps]; t_data := map (numerical_value w) (map Param ps) |}.

Definition holders_tensor (w : World F) (hs : list (Holder F)) : Tensor F :=
  vector (map (holder_value w) hs).

End Reference.

(** ** Concrete inputs used in the examples *)

Module Examples.
Import Ideal.
Local Open Scope R_scope.

Definition w0 : World R := {| param_value := fun _ => 0; next_id := 0%nat; rng := 0%nat |}.

Definition p0 : ZfitParameter := {| p_id := 100; p_name := "a" |}.
Definition p1 : ZfitParameter := {| p_id := 101; p_name := "b" |}.
Definition p2 : ZfitParameter := {| p_id := 102; p_name := "c" |}.

(** A world in which [p0] is 1 and [p1] is 2. *)
Definition w12 : World R := set_value p1 2 (set_value p0 1 w0).

(** A world in which [p0] and [p1] are both 1. *)
Definition w11 : World R := set_value p1 1 (set_value p0 1 w0).

(** A world in which [p0] is 5. *)
Definition w5 : World R := set_value p0 5 w0.

Definition numbers (l : list R) : list (Numerical R) := map Number l.

(** A scalar [sigma] that is the parameter [p]. *)
Definition sigma_param (p : ZfitParameter) : ArrayLike R :=
  {| a_shape := []; a_items := [Param p] |}.

Definition sigma_scalar (v : R) : ArrayLike R := {| a_shape := []; a_items := [Number v] |}.
Definition sigma_vector (l : list R) : ArrayLike R :=
  {| a_shape := [length l]; a_items := numbers l |}.

(** The constraint [GaussianConstraint(x=[1, 2], mu=[p0, p1], sigma=[1, 1])]
    built in [w12], and the world after its construction. *)
Definition c_two : Obj R := gaussian_obj (numbers [1; 2]) [p0; p1] (sigma_vector [1; 1]) 0.
Definition w_two : World R := advance 2 w12.

End Examples.

(** * Properties *)

(** ** Text and dictionaries *)

Lemma str_nat_inj (i j : nat) : str_nat i = str_nat j -> i = j.
Proof.
  unfold str_nat. intros E.
  assert (Nat.to_uint i = Nat.to_uint j) as E'.
  { apply (f_equal NilEmpty.uint_of_string) in E.
    rewrite !NilEmpty.usu in E. congruence. }
  apply (f_equal Nat.of_uint) in E'.
  by rewrite !DecimalNat.Unsigned.of_to in E'.
Qed.

Lemma append_inj_r (p s t : string) : p +:+ s = p +:+ t -> s = t.
Proof. induction p as [|a p IH]; simpl; [done|]. intros [= E]. auto. Qed.

Lemma slot_name_eqb (i j : nat) :
  i <> j -> String.eqb ("param_" +:+ str_nat i) ("param_" +:+ str_nat j) = false.
Proof.
  intros Hne. apply String.eqb_neq. intros E.
  apply Hne, str_nat_inj. by apply (append_inj_r "param_").
Qed.

Section Dicts.
Context {K V : Type} `{PyKey K}.

Lemma dict_set_new (d : pydict K V) (k : K) (v : V) :
  Forall (fun kv => key_eqb kv.1 k = false) d -> dict_set d k v = d ++ [(k, v)].
Proof.
  induction 1 as [|[k' v'] d Hk _ IH]; simpl in *; [done|].
  by rewrite Hk, IH.
Qed.

(** Items whose keys differ pairwise go into the dict one after the other. *)
Lemma dict_of_items_fresh (items acc : list (K * V)) :
  (forall i j a b, (acc ++ items) !! i = Some a -> (acc ++ items) !! j = Some b ->
                   i < j -> key_eqb a.1 b.1 = false) ->
  fold_left (fun d kv => dict_set d kv.1 kv.2) items acc = acc ++ items.
Proof.
  revert acc. induction items as [|[k v] items IH]; intros acc Hd; simpl.
  - by rewrite app_nil_r.
  - rewrite dict_set_new.
    + rewrite IH; rewrite <- app_assoc; [done|]. exact Hd.
    + apply Forall_lookup_2. intros i a Ha.
      apply (Hd i (length acc) a (k, v)).
      * by apply lookup_app_l_Some.
      * by rewrite list_lookup_middle.
      * by apply lookup_lt_Some in Ha.
Qed.

Lemma dict_of_items_distinct (items : list (K * V)) :
  (forall i j a b, items !! i = Some a -> items !! j = Some b ->
                   i < j -> key_eqb a.1 b.1 = false) ->
  dict_of_items items = items.
Proof. intros Hd. unfold dict_of_items. by rewrite dict_of_items_fresh. Qed.

(** Looking up the key of an item finds its value when no earlier key is
    the same. *)
Lemma dict_get_distinct (items : list (K * V)) (i : nat) (k : K) (v : V) :
  (forall i j a b, items !! i = Some a -> items !! j = Some b ->
                   i < j -> key_eqb a.1 b.1 = false) ->
  key_eqb k k = true ->
  items !! i = Some (k, v) -> dict_get items k = Some v.
Proof.
  revert i. induction items as [|[k' v'] items IH]; intros i Hd Hk Hi; [done|].
  destruct i as [|i]; simpl in *.
  - injection Hi as -> ->. by rewrite Hk.
  - assert (key_eqb k' k = false) as ->
      by (apply (Hd 0 (S i) (k', v') (k, v)); done || lia).
    apply (IH i); [|done..].
    intros a b ka kb Ha Hb Hlt. apply (Hd (S a) (S b)); [done..|lia].
Qed.

End Dicts.

Lemma param_slots_lookup (ps : list ZfitParameter) (i : nat) (a : string * ZfitParameter) :
  param_slots ps !! i = Some a -> a.1 = "param_" +:+ str_nat i.
Proof.
  unfold param_slots. rewrite list_lookup_imap.
  destruct (ps !! i); simpl; [|done]. by intros [= <-].
Qed.

Lemma dict_of_param_slots (ps : list ZfitParameter) :
  dict_of_items (param_slots ps) = param_slots ps.
Proof.
  apply dict_of_items_distinct. intros i j a b Ha Hb Hlt.
  rewrite (param_slots_lookup _ _ _ Ha), (param_slots_lookup _ _ _ Hb).
  apply slot_name_eqb. lia.
Qed.

Lemma param_slots_values (ps : list ZfitParameter) : dict_values (param_slots ps) = ps.
Proof.
  unfold dict_values, param_slots.
  apply list_eq. intros i. rewrite list_lookup_fmap, list_lookup_imap.
  by destruct (ps !! i).
Qed.

Lemma param_slots_len (ps : list ZfitParameter) : dict_len (param_slots ps) = length ps.
Proof. unfold dict_len, param_slots. by rewrite length_imap. Qed.

(** ** Entries of row-major data *)

Lemma flat_map_ext_In {A B} (f g : A -> list B) (l : list A) :
  (forall a, In a l -> f a = g a) -> flat_map f l = flat_map g l.
Proof.
  induction l as [|a l IH]; simpl; intros Hfg; [done|].
  rewrite (Hfg a) by auto. rewrite IH; auto.
Qed.

(** Entry [(i, j)] of the rows [f a], [f (a+1)], ... of width [n]. *)
Lemma nth_grid {A} (f : nat -> nat -> A) (n k a i j : nat) (d : A) :
  i < k -> j < n ->
  nth (i * n + j) (flat_map (fun r => map (f r) (seq 0 n)) (seq a k)) d = f (a + i) j.
Proof.
  revert a i. induction k as [|k IH]; intros a i Hi Hj; [lia|].
  simpl. destruct i as [|i].
  - rewrite app_nth1 by (rewrite length_map, length_seq; lia).
    simpl. rewrite (nth_indep _ d (f a 0)) by (rewrite length_map, length_seq; lia).
    rewrite map_nth, seq_nth by lia. by rewrite Nat.add_0_r.
  - rewrite app_nth2 by (rewrite length_map, length_seq; simpl; lia).
    rewrite length_map, length_seq.
    replace (S i * n + j - n) with (i * n + j) by (simpl; lia).
    rewrite IH by lia. f_equal. lia.
Qed.

(** ** Running computations *)

(** Unfold the monad and the attribute accesses of a straight-line body. *)
Ltac run :=
  repeat (unfold mbind, mret, ST_bind, ST_ret, raise, gets, modify, of_result,
                 lift, assign, attr;
          cbn [fst snd cls base simple _x dist gauss]).

Section Run.
Context {F : Type} `{!Backend F}.
Implicit Types (self : Obj F) (w : World F).
Abbreviation WorldM := (ST (World F)).
Abbreviation M := (ST (Obj F * World F)).

Lemma run_bind {A B} (m : M A) (f : A -> M B) (s : Obj F * World F) :
  (m ≫= f) s = match m s with
               | (inr a, s') => f a s'
               | (inl e, s') => (inl e, s')
               end.
Proof. reflexivity. Qed.

Lemma run_ret {A} (a : A) (s : Obj F * World F) : (mret a : M A) s = (inr a, s).
Proof. reflexivity. Qed.

Lemma run_lift {A} (m : WorldM A) self w :
  lift m (self, w) = ((m w).1, (self, (m w).2)).
Proof. unfold lift. simpl. by destruct (m w). Qed.

Lemma run_attr {L A} (layer : Obj F -> option L) (field : L -> A) (n : string) self w (l : L) :
  layer self = Some l -> attr layer field n (self, w) = (inr (field l), (self, w)).
Proof. intros E. unfold attr. simpl. by rewrite E. Qed.

Lemma advance_0 w : advance 0 w = w.
Proof. by destruct w. Qed.

Lemma advance_S n w :
  advance n {| param_value := param_value w; next_id := S (next_id w); rng := rng w |}
  = advance (S n) w.
Proof. unfold advance. simpl. f_equal. lia. Qed.

Lemma run_convert_to_parameter (v : Numerical F) (name : string) w :
  convert_to_parameter v name w
  = (inr {| h_id := next_id w; h_name := name; h_source := v |},
     {| param_value := param_value w; next_id := S (next_id w); rng := rng w |}).
Proof. reflexivity. Qed.

(** The list comprehension of [SamplableConstraint.__init__] creates the
    holders one after the other. *)
Lemma holders_comprehension (l : list (Numerical F * ZfitParameter)) self w :
  mapM (fun xp => lift (convert_to_parameter xp.1 (p_name xp.2 +:+ "_obs"))) l (self, w)
  = (inr (imap (fun i xp => {| h_id := next_id w + i;
                               h_name := p_name xp.2 +:+ "_obs";
                               h_source := xp.1 |}) l),
     (self, advance (length l) w)).
Proof.
  revert w. induction l as [|[a p] l IH]; intros w.
  - simpl. by rewrite advance_0.
  - cbn [mapM]. rewrite run_bind, run_lift, run_convert_to_parameter.
    cbn [fst snd]. rewrite run_bind, IH. cbn -[advance]. rewrite advance_S.
    unfold mret, ST_ret. do 3 f_equal.
    + by rewrite Nat.add_0_r.
    + apply imap_ext. intros i [b q] _. simpl. f_equal. lia.
Qed.

End Run.

(** ** Construction of a samplable constraint *)

Section Samplable.
Context {F : Type} `{!Backend F}.
Implicit Types (self : Obj F) (w : World F).

Lemma run_SamplableConstraint_init (x : Container (Numerical F))
    (params : pydict string ZfitParameter) (name : string) (dtype : DType) self w :
  let xs := convert_to_container x in
  let self' := set_base {| b_name := name; b_dtype := dtype; b_params := params |} self in
  SamplableConstraint_init x params name dtype (self, w) =
    if length xs =? dict_len params
    then (inr tt, (set_x (obs_holders (next_id w) xs (dict_values params)) self',
                   advance (length xs) w))
    else (inl (ShapeIncompatibleError (lengths_message (length xs) (dict_len params))),
          (self', w)).
Proof.
  intros xs self'. unfold SamplableConstraint_init.
  rewrite run_bind. cbn [BaseConstraint_init BaseNumeric_init assign modify fst snd].
  fold xs. fold self'.
  destruct (length xs =? dict_len params) eqn:E; cbn [negb].
  - rewrite run_bind, holders_comprehension. cbn [assign modify fst snd].
    unfold obs_holders. rewrite length_zip.
    apply Nat.eqb_eq in E. unfold dict_len in E. unfold dict_values.
    rewrite length_map, <- E, Nat.min_id. reflexivity.
  - reflexivity.
Qed.

(** C3. Calling a samplable class on [x] and [params] raises
    [ShapeIncompatibleError], with a message that gives both lengths, when
    [len(x)] and [len(params)] differ; when they are equal the call returns
    the object, with one holder per parameter. *)
Theorem samplable_construction_checks_lengths (c : Class) (x : Container (Numerical F))
    (params : pydict string ZfitParameter) (name : string) (dtype : DType) w :
  let xs := convert_to_container x in
  new c (SamplableConstraint_init x params name dtype) w =
    if length xs =? dict_len params
    then (inr (set_x (obs_holders (next_id w) xs (dict_values params))
                     (set_base {| b_name := name; b_dtype := dtype; b_params := params |}
                               (empty_obj c))),
          advance (length xs) w)
    else (inl (ShapeIncompatibleError
                 ("x and params have to be the same lenght. Currentlyx: " +:+
                  str_nat (length xs) +:+ ", params: " +:+ str_nat (dict_len params))),
          w).
Proof.
  intros xs. unfold new. rewrite run_SamplableConstraint_init. fold xs.
  by destruct (length xs =? dict_len params).
Qed.

End Samplable.

(** ** The Gaussian constraint *)

Section Gaussian.
Context {F : Type} `{!Backend F}.
Implicit Types (self : Obj F) (w : World F) (mu : list ZfitParameter).

Lemma run_GaussianConstraint (x : Container (Numerical F)) (mu : Container ZfitParameter)
    (sigma : ArrayLike F) w :
  let xs := convert_to_container x in
  let ms := convert_to_container mu in
  GaussianConstraint x mu sigma w =
    if length xs =? length ms
    then (inr (gaussian_obj xs ms sigma (next_id w)), advance (length xs) w)
    else (inl (ShapeIncompatibleError (lengths_message (length xs) (length ms))), w).
Proof.
  intros xs ms. unfold GaussianConstraint, new, GaussianConstraint_init.
  fold xs. fold ms. rewrite run_bind. cbn [assign modify fst snd].
  unfold DistributionConstraint_init. rewrite run_bind, run_SamplableConstraint_init.
  rewrite dict_of_param_slots, param_slots_len, param_slots_values.
  cbn [convert_to_container].
  destruct (length xs =? length ms); [|reflexivity].
  reflexivity.
Qed.

Lemma run_x self w (xs : list (Holder F)) :
  _x self = Some xs -> x (self, w) = (inr xs, (self, w)).
Proof. intros E. unfold x. run. by rewrite E. Qed.

Lemma run_x_array self w (xs : list (Holder F)) :
  _x self = Some xs -> _x_array (self, w) = (inr (holders_tensor w xs), (self, w)).
Proof. intros E. unfold _x_array. rewrite run_bind, (run_x _ _ _ E). reflexivity. Qed.

Lemma shape_tensor_diag (t : Tensor F) :
  t_shape (tensor_diag (z_pow2 t)) = t_shape t ++ t_shape t.
Proof. reflexivity. Qed.

Lemma run_create_covariance self w mu (sigma : ArrayLike F) (xs : list (Holder F)) :
  _x self = Some xs ->
  create_covariance mu sigma (self, w) =
    (covariance_result (length xs) (length mu) (sigma_tensor w sigma), (self, w)).
Proof.
  intros E.
  unfold covariance_result, sizes_agree, sizes_message, built_covariance, sigma_tensor.
  destruct sigma as [[|n [|m rest]] items];
    unfold create_covariance, _x_array, x, convert_to_tensor, tf_reshape, dim, ndims, vector;
    run; rewrite E; cbn -[str_nat String.append tensor_diag z_pow2];
    rewrite ?shape_tensor_diag, ?length_map;
    cbn -[str_nat String.append tensor_diag z_pow2];
    destruct (length xs =? length mu); cbn -[str_nat String.append tensor_diag z_pow2];
    try reflexivity.
  - destruct (length mu =? 1); reflexivity.
  - destruct (length mu =? n); cbn -[str_nat String.append tensor_diag z_pow2];
      [destruct (n =? n)|]; reflexivity.
  - destruct (length mu =? n); cbn -[str_nat String.append tensor_diag z_pow2];
      [destruct (n =? m)|]; reflexivity.
Qed.

(** On well-shaped input the covariance built by the code is the covariance
    of the specification. *)
Lemma built_covariance_spec (t : Tensor F) :
  length (t_data t) = numel (t_shape t) -> built_covariance t = spec_covariance t.
Proof.
  unfold built_covariance, spec_covariance, tensor_diag, z_pow2.
  destruct t as [[|n [|m rest]] data]; cbn [t_shape t_data numel foldr]; intros Hlen.
  - destruct data as [|v [|v' data]]; [done| |done]. reflexivity.
  - rewrite Nat.mul_1_r in *. cbn [app]. f_equal.
    apply flat_map_ext_In. intros i Hi%in_seq. apply map_ext. intros j.
    destruct (i =? j); [|done].
    rewrite (nth_indep _ zero (square zero)) by (rewrite length_map; lia).
    apply map_nth.
  - reflexivity.
Qed.

Lemma entry_spec_covariance_vector (d : list F) (i j : nat) :
  i < length d -> j < length d ->
  entry zero (spec_covariance (vector d)) i j
  = if i =? j then square (nth i d zero) else zero.
Proof.
  intros Hi Hj. unfold entry, spec_covariance, vector. cbn [t_shape t_data].
  by rewrite (nth_grid (fun i j => if i =? j then square (nth i d zero) else zero)).
Qed.

Lemma values_obs_holders w (first : nat) (xs : list (Numerical F)) (ps : list ZfitParameter) :
  length xs = length ps ->
  map (holder_value w) (obs_holders first xs ps) = map (numerical_value w) xs.
Proof.
  intros E. unfold obs_holders. apply list_eq. intros i.
  rewrite !list_lookup_fmap, list_lookup_imap, lookup_zip_with.
  destruct (xs !! i) as [a|] eqn:Ha; simpl; [|done].
  destruct (ps !! i) as [q|] eqn:Hq; simpl; [done|].
  apply lookup_lt_Some in Ha. apply lookup_ge_None in Hq. lia.
Qed.

Lemma GaussianConstraint_inv (x : Container (Numerical F)) (mu : Container ZfitParameter)
    (sigma : ArrayLike F) w0 (c : Obj F) w1 :
  GaussianConstraint x mu sigma w0 = (inr c, w1) ->
  length (convert_to_container x) = length (convert_to_container mu) /\
  c = gaussian_obj (convert_to_container x) (convert_to_container mu) sigma (next_id w0) /\
  w1 = advance (length (convert_to_container x)) w0.
Proof.
  rewrite run_GaussianConstraint. cbn zeta.
  destruct (length (convert_to_container x) =? length (convert_to_container mu)) eqn:E;
    [|discriminate].
  apply Nat.eqb_eq in E. by intros [= <- <-].
Qed.

Lemma length_obs_holders (first : nat) (xs : list (Numerical F)) (ps : list ZfitParameter) :
  length xs = length ps -> length (obs_holders first xs ps) = length xs.
Proof. intros E. unfold obs_holders. rewrite length_imap, length_zip. lia. Qed.

Section Object.
Variables (xs : list (Numerical F)) (ms : list ZfitParameter) (sigma : ArrayLike F)
          (first : nat).
Hypothesis same_length : length xs = length ms.

Let c : Obj F := gaussian_obj xs ms sigma first.
Let hs : list (Holder F) := obs_holders first xs ms.

Lemma run_covariance_gaussian w :
  covariance (c, w) =
    (covariance_result (length xs) (length ms) (sigma_tensor w sigma), (c, w)).
Proof using same_length.
  unfold covariance. rewrite run_bind. cbn [attr c gaussian_obj gauss fst snd _covariance cc_mu cc_sigma].
  rewrite (run_create_covariance _ _ _ _ hs); [|reflexivity].
  unfold hs. by rewrite length_obs_holders.
Qed.

Lemma run_distribution_gaussian w :
  distribution (c, w) =
    match covariance_result (length xs) (length ms) (sigma_tensor w sigma) with
    | inl e => (inl e, (c, w))
    | inr cov =>
        match mvn_check (params_tensor w ms) cov true with
        | inl e => (inl e, (c, w))
        | inr _ => (inr (mvn_instance (next_id w) (params_tensor w ms) cov),
                    (c, advance 1 w))
        end
    end.
Proof using same_length.
  unfold distribution. rewrite run_bind.
  cbn [attr c gaussian_obj dist fst snd dist_params evaluated call callable].
  rewrite run_bind, run_bind, run_covariance_gaussian.
  destruct (covariance_result _ _ _) as [e|cov]; [reflexivity|].
  unfold name, MultivariateNormalFullCovariance, convert_to_tensor, fresh_id, params_tensor.
  run. cbn -[mvn_instance mvn_check]. unfold convert_to_tensor, fresh_id. run.
  by destruct (mvn_check _ cov true) as [e|[]].
Qed.

Lemma run_value_gaussian w :
  value (c, w) =
    match covariance_result (length xs) (length ms) (sigma_tensor w sigma) with
    | inl e => (inl e, (c, w))
    | inr cov =>
        match mvn_check (params_tensor w ms) cov true with
        | inl e => (inl e, (c, w))
        | inr _ =>
            match mvn_log_prob (params_tensor w ms) cov (holders_tensor w hs) with
            | inl e => (inl e, (c, advance 1 w))
            | inr lp => (inr (tensor_neg lp), (c, advance 1 w))
            end
        end
    end.
Proof using same_length.
  unfold value, _value. rewrite run_bind. cbn [gets fst snd c gaussian_obj cls].
  unfold DistributionConstraint__value.
  rewrite run_bind, run_distribution_gaussian. fold c.
  destruct (covariance_result _ _ _) as [e|cov]; [reflexivity|].
  destruct (mvn_check _ cov true) as [e|[]]; [reflexivity|].
  rewrite run_bind, (run_x_array _ _ hs); [|reflexivity].
  rewrite run_bind, run_lift. cbn [fst snd mvn_instance log_prob of_result].
  by destruct (mvn_log_prob _ cov _) as [e|lp].
Qed.

End Object.

Lemma entry_diag_square (d : list F) (i j : nat) :
  i < length d -> j < length d ->
  entry zero (tensor_diag (z_pow2 (vector d))) i j
  = if i =? j then square (nth i d zero) else zero.
Proof.
  intros Hi Hj. rewrite <- entry_spec_covariance_vector by done.
  f_equal. apply (built_covariance_spec (vector d)). simpl. lia.
Qed.

(** C4. The covariance is chosen by the rank of [sigma]: a scalar is
    reshaped to a vector of length one, squared and put on a diagonal, which
    gives the 1 x 1 matrix of its square; a vector gives the diagonal matrix
    of its squares; a matrix of the right size is the covariance itself.  The
    [covariance] property returns that matrix. *)
Theorem covariance_classifies_sigma_by_rank (x : Container (Numerical F))
    (mu : Container ZfitParameter) (sigma : ArrayLike F) w0 (c : Obj F) w1 w :
  GaussianConstraint x mu sigma w0 = (inr c, w1) ->
  let N := length (convert_to_container mu) in
  let t := sigma_tensor w sigma in
  (forall s, t = scalar s -> N = 1 ->
     covariance (c, w) = (inr (tensor_diag (z_pow2 (vector [s]))), (c, w)) /\
     tensor_diag (z_pow2 (vector [s])) = {| t_shape := [1; 1]; t_data := [square s] |}) /\
  (forall d, t = vector d -> length d = N ->
     covariance (c, w) = (inr (tensor_diag (z_pow2 t)), (c, w)) /\
     t_shape (tensor_diag (z_pow2 t)) = [N; N] /\
     forall i j, i < N -> j < N ->
       entry zero (tensor_diag (z_pow2 t)) i j
       = if i =? j then square (nth i d zero) else zero) /\
  (t_shape t = [N; N] -> covariance (c, w) = (inr t, (c, w))).
Proof.
  intros (Hlen & -> & _)%GaussianConstraint_inv N t.
  assert (forall cov, covariance_result N N t = inr cov ->
            covariance (gaussian_obj (convert_to_container x) (convert_to_container mu)
                                     sigma (next_id w0), w)
            = (inr cov, (gaussian_obj (convert_to_container x) (convert_to_container mu)
                                      sigma (next_id w0), w))) as Hrun.
  { intros cov Hcov. rewrite run_covariance_gaussian by done.
    fold t. rewrite Hlen. fold N. by rewrite Hcov. }
  split; [|split].
  - intros s Hs HN. split; [|reflexivity].
    apply Hrun. unfold covariance_result. rewrite Hs, HN. reflexivity.
  - intros d Hd HN. split; [|split].
    + apply Hrun. unfold covariance_result, built_covariance, sizes_agree.
      rewrite Hd. cbn [vector t_shape covariance_dims fst snd]. rewrite HN.
      by rewrite !Nat.eqb_refl.
    + rewrite Hd. simpl. by rewrite HN.
    + intros i j Hi Hj. rewrite Hd. apply entry_diag_square; lia.
  - intros Ht. apply Hrun. unfold covariance_result, built_covariance, sizes_agree.
    rewrite Ht. cbn [covariance_dims fst snd]. by rewrite !Nat.eqb_refl.
Qed.

(** C2, as the code has it. When [x] and [mu] differ in length, the call
    of the class itself raises, with the message of
    [SamplableConstraint.__init__] that gives those two lengths.  When they
    have the same length [N] the call returns the constraint whatever
    [sigma] is, and if the two leading dimensions of the covariance built
    from [sigma] (1 and 1 for a scalar, [n] and [n] for a vector of length
    [n], the first two dimensions of [sigma] from rank 2 on) are not both
    [N], each access of [covariance] and each [value()] raises
    [ShapeIncompatibleError] with the three sizes in its message. *)
Theorem gaussian_sizes_checked_at_construction_then_lazily
    (x : Container (Numerical F)) (mu : Container ZfitParameter) (sigma : ArrayLike F) w0 :
  let xs := convert_to_container x in
  let ms := convert_to_container mu in
  (length xs <> length ms ->
   GaussianConstraint x mu sigma w0 =
     (inl (ShapeIncompatibleError
             ("x and params have to be the same lenght. Currentlyx: " +:+
              str_nat (length xs) +:+ ", params: " +:+ str_nat (length ms))),
      w0)) /\
  (length xs = length ms ->
   exists c w1,
     GaussianConstraint x mu sigma w0 = (inr c, w1) /\
     forall w,
       let N := length ms in
       let cd := covariance_dims (a_shape sigma) in
       sizes_agree N N cd = false ->
       let failure :=
         ShapeIncompatibleError
           ("x, mu and sigma have to have the same length. Currentlyx: " +:+ str_nat N +:+
            ", mu: " +:+ str_nat N +:+
            ", covariance (from sigma): " +:+ str_shape [cd.1; cd.2]) in
       covariance (c, w) = (inl failure, (c, w)) /\
       value (c, w) = (inl failure, (c, w))).
Proof.
  intros xs ms. split; intros Hlen.
  - rewrite run_GaussianConstraint. fold xs ms.
    by apply Nat.eqb_neq in Hlen as ->.
  - eexists _, _. split.
    + rewrite run_GaussianConstraint. fold xs ms.
      apply Nat.eqb_eq in Hlen as ->. reflexivity.
    + intros w N cd Hcd failure.
      rewrite run_covariance_gaussian, run_value_gaussian by done.
      unfold covariance_result. cbn [sigma_tensor t_shape]. fold cd.
      rewrite Hlen. fold N. by rewrite Hcd.
Qed.

(** The value of a constraint with valid input: the negated log-density of
    the backend, at the current observed values, for the current values of
    [mu] and the covariance of the specification. *)
Lemma value_of_valid_gaussian (x : Container (Numerical F)) (mu : Container ZfitParameter)
    (sigma : ArrayLike F) w0 (c : Obj F) w1 w (lp : Tensor F) :
  GaussianConstraint x mu sigma w0 = (inr c, w1) ->
  well_shaped sigma ->
  let xs := convert_to_container x in
  let ms := convert_to_container mu in
  let N := length ms in
  let cov := spec_covariance (sigma_tensor w sigma) in
  covariance_dims (a_shape sigma) = (N, N) ->
  mvn_check (params_tensor w ms) cov true = inr tt ->
  mvn_log_prob (params_tensor w ms) cov (vector (map (numerical_value w) xs)) = inr lp ->
  value (c, w) = (inr (tensor_neg lp), (c, advance 1 w)).
Proof.
  intros (Hlen & -> & _)%GaussianConstraint_inv Hwf xs ms N cov Hdims Hcheck Hlp.
  rewrite run_value_gaussian by done. fold xs ms.
  unfold covariance_result, sizes_agree. cbn [sigma_tensor t_shape].
  fold xs ms in Hlen. rewrite Hdims, Hlen. fold N. cbn [fst snd].
  rewrite !Nat.eqb_refl. cbn [andb].
  rewrite built_covariance_spec by (unfold sigma_tensor; simpl; by rewrite length_map).
  fold cov. rewrite Hcheck.
  unfold holders_tensor. rewrite values_obs_holders by done. fold xs. by rewrite Hlp.
Qed.

(** The distribution of a constraint with valid input: a new instance,
    bound to the current values of [mu] and to the current covariance. *)
Lemma distribution_of_valid_gaussian (x : Container (Numerical F))
    (mu : Container ZfitParameter) (sigma : ArrayLike F) w0 (c : Obj F) w1 w :
  GaussianConstraint x mu sigma w0 = (inr c, w1) ->
  let ms := convert_to_container mu in
  let N := length ms in
  let cov := built_covariance (sigma_tensor w sigma) in
  covariance_dims (a_shape sigma) = (N, N) ->
  mvn_check (params_tensor w ms) cov true = inr tt ->
  distribution (c, w) =
    (inr (mvn_instance (next_id w) (params_tensor w ms) cov), (c, advance 1 w)).
Proof.
  intros (Hlen & -> & _)%GaussianConstraint_inv ms N cov Hdims Hcheck.
  rewrite run_distribution_gaussian by done. fold ms.
  unfold covariance_result, sizes_agree. cbn [sigma_tensor t_shape].
  fold ms in Hlen. rewrite Hdims, Hlen. fold N. cbn [fst snd].
  rewrite !Nat.eqb_refl. cbn [andb]. fold cov. by rewrite Hcheck.
Qed.

End Gaussian.

(** ** The simple constraint *)

Section Simple.
Context {F : Type} `{!Backend F}.
Implicit Types (self : Obj F) (w : World F).

Lemma run_SimpleConstraint (func : ST (World F) (Tensor F)) (params : Container ZfitParameter) w :
  SimpleConstraint func params w =
    (inr {| cls := cls_SimpleConstraint;
            base := Some {| b_name := "SimpleConstraint"; b_dtype := ztypes_float;
                            b_params := param_slots (convert_to_container params) |};
            simple := Some {| _simple_func := func;
                              _simple_func_dependents :=
                                ordered_set (convert_to_container params) |};
            _x := None; dist := None; gauss := None |}, w).
Proof.
  unfold SimpleConstraint, new, SimpleConstraint_init, BaseConstraint_init, BaseNumeric_init.
  run. by rewrite dict_of_param_slots.
Qed.

(** C7. The value of a simple constraint is what its function returns, as
    it returns it, whatever the parameters given for the bookkeeping are
    worth: with a function that returns [v], [value()] is [v] for every
    current value of every parameter. *)
Theorem simple_value_is_function_result (func : ST (World F) (Tensor F))
    (params : Container ZfitParameter) w0 :
  exists c,
    SimpleConstraint func params w0 = (inr c, w0) /\
    (forall w, value (c, w) = ((func w).1, (c, (func w).2))) /\
    (forall v, func = mret v ->
       forall p u w, value (c, set_value p u w) = (inr v, (c, set_value p u w))).
Proof.
  eexists. split; [apply run_SimpleConstraint|]. split.
  - intros w. unfold value, _value, SimpleConstraint__value. run.
    cbn [_simple_func]. by destruct (func w).
  - intros v -> p u w. reflexivity.
Qed.

End Simple.

(** The [params] of a simple constraint are the slots [param_0],
    [param_1], ... holding the given parameters in their order. *)
Theorem simple_params_are_positional {F : Type} `{!Backend F}
    (func : ST (World F) (Tensor F)) (params : Container ZfitParameter) (w0 : World F) :
  exists c b,
    SimpleConstraint func params w0 = (inr c, w0) /\
    base c = Some b /\
    b_name b = "SimpleConstraint" /\
    dict_keys (b_params b)
    = map (fun i => "param_" +:+ str_nat i) (seq 0 (length (convert_to_container params))) /\
    dict_values (b_params b) = convert_to_container params.
Proof.
  eexists _, _. split; [apply run_SimpleConstraint|].
  cbn [base b_name b_params]. repeat split.
  - unfold dict_keys, param_slots. cbn [b_params]. apply list_eq. intros i.
    rewrite !list_lookup_fmap, list_lookup_imap.
    destruct (convert_to_container params !! i) as [p|] eqn:E; simpl.
    + apply lookup_lt_Some in E. by rewrite lookup_seq_lt.
    + apply lookup_ge_None in E. by rewrite lookup_seq_ge.
  - apply param_slots_values.
Qed.

(** The abstract methods: [value()] of a bare [BaseConstraint] or
    [SamplableConstraint] raises [NotImplementedError], and so does
    [sample(n)] of a bare [SamplableConstraint]. *)
Theorem abstract_methods_raise {F : Type} `{!Backend F} (self : Obj F) (w : World F) (n : nat) :
  (cls self = cls_BaseConstraint \/ cls self = cls_SamplableConstraint ->
   value (self, w) = (inl NotImplementedError, (self, w))) /\
  (cls self = cls_SamplableConstraint ->
   sample n (self, w) = (inl NotImplementedError, (self, w))).
Proof.
  split.
  - intros Hc. unfold value, _value. run. by destruct Hc as [-> | ->].
  - intros Hc. unfold sample, _sample. run. by rewrite Hc.
Qed.

(** ** Dependents *)

Section Dependents.
Context {F : Type} `{!Backend F}.
Implicit Types (self : Obj F) (w : World F).

Lemma run_get_dependents self w (b : BaseFields) :
  base self = Some b ->
  get_dependents (self, w) = (inr (list_to_set (dict_values (b_params b))), (self, w)).
Proof.
  intros E. unfold get_dependents, _get_dependents.
  unfold BaseConstraint__get_dependents, SamplableConstraint__get_dependents,
         get_params, _extract_dependents.
  run. destruct (cls self); cbn beta iota; cbn [fst snd]; by rewrite E.
Qed.

(** C8. [get_dependents()] is the set of the parameters in the [params]
    mapping; for a Gaussian constraint that is the set of the [mu]
    parameters. *)
Theorem dependents_are_params :
  (forall self w (b : BaseFields),
     base self = Some b ->
     get_dependents (self, w) = (inr (list_to_set (dict_values (b_params b))), (self, w))) /\
  (forall (x : Container (Numerical F)) (mu : Container ZfitParameter) (sigma : ArrayLike F)
          w0 (c : Obj F) w1 w,
     GaussianConstraint x mu sigma w0 = (inr c, w1) ->
     get_dependents (c, w) = (inr (list_to_set (convert_to_container mu)), (c, w))).
Proof.
  split.
  - apply run_get_dependents.
  - intros x mu sigma w0 c w1 w (_ & -> & _)%GaussianConstraint_inv.
    erewrite run_get_dependents by reflexivity.
    cbn [b_params]. by rewrite param_slots_values.
Qed.

End Dependents.

(** ** Methods do not assign to [self] *)

Create HintDb preserve discriminated.

Section Preservation.
Context {F : Type} `{!Backend F}.
Implicit Types (self : Obj F) (w : World F).
Abbreviation M := (ST (Obj F * World F)).

Lemma preserves_ret {A} (a : A) : preserves_self (mret a : M A).
Proof. by intros s. Qed.

Lemma preserves_raise {A} (e : exn) : preserves_self (raise e : M A).
Proof. by intros s. Qed.

Lemma preserves_of_result {A} (r : exn + A) : preserves_self (of_result r : M A).
Proof. by intros s. Qed.

Lemma preserves_gets {A} (f : Obj F * World F -> A) : preserves_self (gets f).
Proof. by intros s. Qed.

Lemma preserves_lift {A} (m : ST (World F) A) : preserves_self (lift m).
Proof. intros [self w]. unfold lift. simpl. by destruct (m w). Qed.

Lemma preserves_attr {L A} (layer : Obj F -> option L) (field : L -> A) (n : string) :
  preserves_self (attr layer field n).
Proof. intros s. unfold attr. by destruct (layer s.1). Qed.

Lemma preserves_bind {A B} (m : M A) (f : A -> M B) :
  preserves_self m -> (forall a, preserves_self (f a)) -> preserves_self (m ≫= f).
Proof.
  intros Hm Hf s. unfold mbind, ST_bind. specialize (Hm s).
  destruct (m s) as [[e|a] s']; [done|]. by rewrite Hf.
Qed.

Lemma preserves_mapM {A B} (f : A -> M B) (l : list A) :
  (forall a, preserves_self (f a)) -> preserves_self (mapM f l).
Proof.
  intros Hf. induction l as [|a l IH]; simpl.
  - apply preserves_ret.
  - apply preserves_bind; [done|]. intros b.
    apply preserves_bind; [done|]. intros k. apply preserves_ret.
Qed.

End Preservation.

#[export] Hint Resolve preserves_ret preserves_raise preserves_of_result preserves_gets
  preserves_lift preserves_attr preserves_mapM : preserve.

(** Walk through a method body, statement by statement. *)
Ltac preserving :=
  repeat (intros; cbn beta;
          lazymatch goal with
          | |- preserves_self (_ ≫= _) => apply preserves_bind
          | |- preserves_self (if ?b then _ else _) => destruct b
          | |- preserves_self (match ?c with _ => _ end) => destruct c
          | |- _ => solve [eauto with preserve]
          end).

Section PreservedBy.
Context {F : Type} `{!Backend F}.

Lemma preserves_x : preserves_self (F := F) x.
Proof. unfold x. preserving. Qed.

Lemma preserves_x_array : preserves_self (F := F) _x_array.
Proof. unfold _x_array. pose proof preserves_x. preserving. Qed.

Lemma preserves_create_covariance (mu : list ZfitParameter) (sigma : ArrayLike F) :
  preserves_self (create_covariance mu sigma).
Proof. unfold create_covariance. pose proof preserves_x_array. preserving. Qed.

Lemma preserves_covariance : preserves_self (F := F) covariance.
Proof. unfold covariance. pose proof preserves_create_covariance. preserving. Qed.

Lemma preserves_mu : preserves_self (F := F) mu.
Proof. unfold mu. preserving. Qed.

Lemma preserves_evaluated (p : Provider F) : preserves_self (evaluated p).
Proof. unfold evaluated, call. pose proof preserves_covariance. preserving. Qed.

Lemma preserves_distribution : preserves_self (F := F) distribution.
Proof. unfold distribution, name. pose proof preserves_evaluated. preserving. Qed.

Lemma preserves_value : preserves_self (F := F) value.
Proof.
  unfold value, _value, SimpleConstraint__value, DistributionConstraint__value.
  pose proof preserves_distribution. pose proof preserves_x_array. preserving.
Qed.

Lemma preserves_sample_draw (n : nat) : preserves_self (F := F) (_sample n).
Proof.
  unfold _sample, DistributionConstraint__sample.
  pose proof preserves_distribution. preserving.
Qed.

Lemma preserves_sample (n : nat) : preserves_self (F := F) (sample n).
Proof.
  unfold sample. pose proof (preserves_sample_draw n). pose proof preserves_x.
  preserving. apply preserves_mapM. preserving.
Qed.

Lemma preserves_get_dependents : preserves_self (F := F) get_dependents.
Proof.
  unfold get_dependents, _get_dependents, BaseConstraint__get_dependents,
         SamplableConstraint__get_dependents, get_params, _extract_dependents.
  preserving.
Qed.

End PreservedBy.

(** ** The distribution constraint *)

Section Distribution.
Context {F : Type} `{!Backend F}.
Implicit Types (self : Obj F) (w : World F).

(** One access of the [distribution] property, step by step. *)
Lemma run_distribution self w (df : DistributionFields) (b : BaseFields) :
  dist self = Some df -> base self = Some b ->
  distribution (self, w) =
    let r1 := evaluated (dist_params df) (self, w) in
    match r1.1 with
    | inl e => (inl e, r1.2)
    | inr params =>
        let r2 := evaluated (dist_kwargs df) r1.2 in
        match r2.1 with
        | inl e => (inl e, r2.2)
        | inr kwargs =>
            match add_keywords params kwargs with
            | inl e => (inl e, r2.2)
            | inr kw =>
                match add_keywords kw [("name", AStr (b_name b +:+ "_tfp"))] with
                | inl e => (inl e, r2.2)
                | inr kw => lift (_distribution df kw) r2.2
                end
            end
        end
    end.
Proof.
  intros Hd Hb. unfold distribution, name.
  rewrite run_bind, (run_attr _ _ _ _ _ _ Hd), run_bind. cbn zeta.
  pose proof (preserves_evaluated (dist_params df) (self, w)) as H1.
  destruct (evaluated (dist_params df) (self, w)) as [[e|params] [self1 w1]]; [done|].
  cbn [fst snd] in *. subst self1.
  rewrite run_bind, (run_attr _ _ _ _ _ _ Hd), run_bind.
  pose proof (preserves_evaluated (dist_kwargs df) (self, w1)) as H2.
  destruct (evaluated (dist_kwargs df) (self, w1)) as [[e|kwargs] [self2 w2]]; [done|].
  cbn [fst snd] in *. subst self2.
  rewrite run_bind, (run_attr _ _ _ _ _ _ Hd), run_bind. cbn [of_result].
  destruct (add_keywords params kwargs) as [e|kw]; [done|].
  rewrite run_bind, (run_attr _ _ _ _ _ _ Hb), run_bind. cbn [of_result].
  by destruct (add_keywords kw _).
Qed.


Lemma add_name_keyword (params : pydict string (Arg F)) (n : string) :
  dict_get params "name" = None ->
  add_keywords params [("name", AStr n)] = inr (params ++ [("name", AStr n)]).
Proof.
  intros Hn. unfold add_keywords. cbn [dict_keys map existsb fst]. by rewrite Hn.
Qed.


End Distribution.

(** ** Sampling *)

Section Sampling.
Context {F : Type} `{!Backend F}.
Implicit Types (self : Obj F) (w : World F).

(** The comprehension of [sample] pairs each holder with its column. *)
Lemma run_columns_from (g : nat -> exn + Tensor F) (h : nat -> Tensor F)
    (hs : list (Holder F)) (a : nat) (s : Obj F * World F) :
  (forall i, i < length hs -> g (a + i) = inr (h (a + i))) ->
  mapM (fun ip : nat * Holder F => col ← of_result (g ip.1); mret (ip.2, col))
       (imap (fun i p => (a + i, p)) hs) s
  = (inr (imap (fun i p => (p, h (a + i))) hs), s).
Proof.
  revert a. induction hs as [|p hs IH]; intros a Hg; [done|].
  cbn [imap mapM]. rewrite run_bind, run_bind. cbn [fst snd of_result].
  rewrite (Hg 0) by (simpl; lia). rewrite run_ret, run_bind.
  rewrite (imap_ext _ (fun i q => (S a + i, q))) by (intros; simpl; f_equal; lia).
  rewrite (IH (S a)) by (intros i Hi; replace (S a + i) with (a + S i) by lia;
                         apply Hg; simpl; lia).
  rewrite run_ret. do 3 f_equal.
  apply imap_ext. intros i q _. simpl. do 2 f_equal. lia.
Qed.

Lemma run_columns (g : nat -> exn + Tensor F) (h : nat -> Tensor F)
    (hs : list (Holder F)) (s : Obj F * World F) :
  (forall i, i < length hs -> g i = inr (h i)) ->
  mapM (fun ip : nat * Holder F => col ← of_result (g ip.1); mret (ip.2, col)) (imap pair hs) s
  = (inr (imap (fun i p => (p, h i)) hs), s).
Proof. intros Hg. exact (run_columns_from g h hs 0 s Hg). Qed.

Lemma flat_map_singleton {A B} (f : A -> B) (l : list A) :
  flat_map (fun a => [f a]) l = map f l.
Proof. induction l as [|a l IH]; simpl; [done|]. by rewrite IH. Qed.

(** A column of a matrix, entry by entry. *)
Lemma column_of_matrix (t : Tensor F) (n m i : nat) :
  t_shape t = [n; m] -> i < m ->
  column zero t i
  = inr {| t_shape := [n]; t_data := map (fun r => entry zero t r i) (seq 0 n) |}.
Proof.
  intros Hs Hi. unfold column, entry. rewrite Hs.
  apply Nat.ltb_lt in Hi as ->. cbn [numel foldr seq map].
  rewrite flat_map_singleton. do 2 f_equal.
  apply map_ext. intros r. f_equal. lia.
Qed.

Lemma lookup_obs_holders (first : nat) (xs : list (Numerical F)) (ps : list ZfitParameter)
    (i : nat) (h : Holder F) :
  obs_holders first xs ps !! i = Some h ->
  exists a p, xs !! i = Some a /\ ps !! i = Some p /\
              h = {| h_id := first + i; h_name := p_name p +:+ "_obs"; h_source := a |}.
Proof.
  unfold obs_holders. rewrite list_lookup_imap, lookup_zip_with.
  destruct (xs !! i) as [a|]; [|done]. destruct (ps !! i) as [p|]; [|done].
  simpl. intros [= <-]. by exists a, p.
Qed.

(** The holders of one constraint are different objects. *)
Lemma obs_holders_distinct (first : nat) (xs : list (Numerical F)) (ps : list ZfitParameter)
    (i j : nat) (a b : Holder F) :
  obs_holders first xs ps !! i = Some a -> obs_holders first xs ps !! j = Some b ->
  i < j -> key_eqb a b = false.
Proof.
  intros (? & ? & _ & _ & ->)%lookup_obs_holders (? & ? & _ & _ & ->)%lookup_obs_holders Hlt.
  unfold key_eqb, Holder_PyKey. simpl. apply Nat.eqb_neq. lia.
Qed.

(** C5. For a constraint whose [x] was set by [SamplableConstraint.__init__]
    and whose [_sample(n)] returns an [n] x [N] draw, [sample(n)] returns a
    dict whose keys are the [N] holders of the observed values, in the order
    of [x] and [params], and the value at the [i]-th holder is column [i] of
    the draw, a series of length [n]. *)
Theorem sample_maps_each_holder_to_its_column (x : Container (Numerical F))
    (params : pydict string ZfitParameter) (name : string) (dtype : DType)
    self0 w0 self1 w1 self w (n : nat) (draw : Tensor F) w' :
  SamplableConstraint_init x params name dtype (self0, w0) = (inr tt, (self1, w1)) ->
  _x self = _x self1 ->
  _sample n (self, w) = (inr draw, (self, w')) ->
  t_shape draw = [n; dict_len params] ->
  let xs := convert_to_container x in
  let hs := obs_holders (next_id w0) xs (dict_values params) in
  exists d,
    sample n (self, w) = (inr d, (self, w')) /\
    dict_keys d = hs /\
    length hs = dict_len params /\
    forall i h, hs !! i = Some h ->
      (exists a p, xs !! i = Some a /\ dict_values params !! i = Some p /\
                   h = {| h_id := next_id w0 + i; h_name := p_name p +:+ "_obs";
                          h_source := a |}) /\
      dict_get d h = Some {| t_shape := [n];
                             t_data := map (fun r => entry zero draw r i) (seq 0 n) |} /\
      length (map (fun r => entry zero draw r i) (seq 0 n)) = n.
Proof.
  intros Hinit Hx Hdraw Hshape xs hs.
  rewrite run_SamplableConstraint_init in Hinit. cbn zeta in Hinit. fold xs in Hinit.
  destruct (length xs =? dict_len params) eqn:Hlen; [|discriminate].
  apply Nat.eqb_eq in Hlen. injection Hinit as <- _.
  cbn [set_x _x] in Hx. fold hs in Hx.
  assert (length hs = dict_len params) as Hhs.
  { unfold hs. rewrite length_obs_holders; [done|].
    unfold dict_values. rewrite length_map. exact Hlen. }
  set (h := fun i => {| t_shape := [n];
                        t_data := map (fun r => entry zero draw r i) (seq 0 n) |}).
  set (items := imap (fun i p => (p, h i)) hs).
  assert (forall i j a b, items !! i = Some a -> items !! j = Some b -> i < j ->
                          key_eqb a.1 b.1 = false) as Hdistinct.
  { intros i j a b Ha Hb Hlt. unfold items in Ha, Hb.
    rewrite list_lookup_imap in Ha, Hb.
    destruct (hs !! i) as [hi|] eqn:Ei; [|done].
    destruct (hs !! j) as [hj|] eqn:Ej; [|done].
    simpl in Ha, Hb. injection Ha as <-. injection Hb as <-.
    exact (obs_holders_distinct _ _ _ _ _ _ _ Ei Ej Hlt). }
  exists items. split; [|split; [|split]].
  - unfold sample. rewrite run_bind, Hdraw, run_bind, (run_x _ _ _ Hx), run_bind.
    rewrite (run_columns _ h).
    + rewrite run_ret. fold items. by rewrite dict_of_items_distinct.
    + intros i Hi. apply (column_of_matrix draw n (dict_len params)); [done|lia].
  - unfold dict_keys, items. apply list_eq. intros i.
    rewrite list_lookup_fmap, list_lookup_imap. by destruct (hs !! i).
  - done.
  - intros i hi Hi. split; [|split].
    + by apply lookup_obs_holders.
    + apply (dict_get_distinct items i); [done| |].
      * apply Nat.eqb_refl.
      * unfold items. rewrite list_lookup_imap, Hi. reflexivity.
    + by rewrite length_map, length_seq.
Qed.

End Sampling.

(** ** The structure of a samplable constraint *)

Section Structure.
Context {F : Type} `{!Backend F}.
Implicit Types (self : Obj F) (w : World F).

(** C10. After [SamplableConstraint.__init__], [x] holds one holder per entry
    of [params], in the same order: the [i]-th holder wraps the [i]-th observed
    value and is named after the [i]-th parameter; for a Gaussian constraint
    the parameters are those of [mu].  No operation assigns to the object:
    after [value()], [sample(n)] and the accesses of [x], [mu], [covariance]
    and [distribution], [self] is what it was, whatever was returned or
    raised. *)
Theorem samplable_structure_is_fixed :
  (forall (x : Container (Numerical F)) (params : pydict string ZfitParameter)
          (name : string) (dtype : DType) self0 w0 self1 w1,
     SamplableConstraint_init x params name dtype (self0, w0) = (inr tt, (self1, w1)) ->
     exists hs b,
       _x self1 = Some hs /\ base self1 = Some b /\ b_params b = params /\
       length hs = dict_len params /\
       forall i, i < dict_len params ->
         exists h a p,
           hs !! i = Some h /\ convert_to_container x !! i = Some a /\
           dict_values params !! i = Some p /\
           h_source h = a /\ h_name h = p_name p +:+ "_obs") /\
  (forall (x : Container (Numerical F)) (mu : Container ZfitParameter) (sigma : ArrayLike F)
          w0 (c : Obj F) w1,
     GaussianConstraint x mu sigma w0 = (inr c, w1) ->
     exists hs b g,
       _x c = Some hs /\ base c = Some b /\ gauss c = Some g /\
       dict_values (b_params b) = convert_to_container mu /\
       _mu g = convert_to_container mu /\
       length hs = length (convert_to_container mu)) /\
  (forall self w (n : nat),
     (value (self, w)).2.1 = self /\
     (sample n (self, w)).2.1 = self /\
     (x (self, w)).2.1 = self /\
     (mu (self, w)).2.1 = self /\
     (covariance (self, w)).2.1 = self /\
     (distribution (self, w)).2.1 = self).
Proof.
  split; [|split].
  - intros x params name dtype self0 w0 self1 w1.
    rewrite run_SamplableConstraint_init. cbn zeta.
    destruct (_ =? _) eqn:Hlen; [|discriminate].
    apply Nat.eqb_eq in Hlen. intros [= <- _].
    assert (length (obs_holders (next_id w0) (convert_to_container x) (dict_values params))
            = dict_len params) as Hhs.
    { rewrite length_obs_holders; [done|]. unfold dict_values. by rewrite length_map. }
    eexists _, _. repeat split; [done|].
    intros i Hi.
    destruct (lookup_lt_is_Some_2
                (obs_holders (next_id w0) (convert_to_container x) (dict_values params)) i)
      as [h Hh]; [lia|].
    destruct (lookup_obs_holders _ _ _ _ _ Hh) as (a & p & Ha & Hp & ->).
    by eexists _, a, p.
  - intros x mu sigma w0 c w1 (Hlen & -> & _)%GaussianConstraint_inv.
    eexists _, _, _. repeat split.
    + apply param_slots_values.
    + by rewrite length_obs_holders.
  - intros self w n. repeat split.
    + apply (preserves_value (self, w)).
    + apply (preserves_sample n (self, w)).
    + apply (preserves_x (self, w)).
    + apply (preserves_mu (self, w)).
    + apply (preserves_covariance (self, w)).
    + apply (preserves_distribution (self, w)).
Qed.

End Structure.

(** ** Scenarios in exact arithmetic *)

Section Scenarios.
Import Ideal Examples.
Local Open Scope R_scope.

Ltac reals := cbv -[Rmult Rplus Rminus Rdiv Ropp Rinv sqrt ln PI INR IZR].

(** In one dimension the density of the backend is the textbook one. *)
Lemma log_normal_1d (m s v : R) :
  0 < s ->
  log_normal (vector [m]) {| t_shape := [1; 1]%nat; t_data := [s * s] |} (vector [v])
  = - (ln (2 * PI) / 2 + ln s + (v - m) * (v - m) / (2 * (s * s))).
Proof.
  intros Hs. reals.
  replace (s * s - 0) with (s * s) by lra. rewrite sqrt_square by lra.
  replace (INR 1) with 1 by (simpl; lra). field. lra.
Qed.

(** With [mu = [5]], [sigma = 2] and [x = [5]] the covariance is the 1 x 1
    matrix [4] and the value is [log (2 pi 4) / 2]. *)
Theorem scenario_scalar_sigma :
  exists c w1,
    GaussianConstraint (Sequence (numbers [5])) (Sequence [p0]) (sigma_scalar 2) w5
    = (inr c, w1) /\
    covariance (c, w1) = (inr {| t_shape := [1; 1]%nat; t_data := [2 * 2] |}, (c, w1)) /\
    value (c, w1) = (inr (scalar (ln (2 * PI * 4) / 2)), (c, advance 1 w1)).
Proof.
  eexists _, _. split; [reflexivity|]. split; [reflexivity|].
  erewrite (value_of_valid_gaussian (Sequence (numbers [5])) (Sequence [p0])
                                    (sigma_scalar 2) w5);
    [|reflexivity..].
  unfold tensor_neg, scalar. cbn [t_shape t_data map negate backend]. do 4 f_equal.
  assert (ln (2 * PI * 4) = ln (2 * PI) + (ln 2 + ln 2)) as ->.
  { pose proof PI_RGT_0. replace 4 with (2 * 2) by lra.
    rewrite ln_mult by lra. rewrite (ln_mult 2 2) by lra. reflexivity. }
  etransitivity; [apply f_equal, (log_normal_1d 5 2 5); lra|]. lra.
Qed.

Lemma scenario_two_independent :
  exists c w1,
    GaussianConstraint (Sequence (numbers [1; 2])) (Sequence [p0; p1]) (sigma_vector [1; 1]) w12
    = (inr c, w1) /\
    covariance (c, w1) = (inr {| t_shape := [2; 2]%nat; t_data := [1; 0; 0; 1] |}, (c, w1)) /\
    value (c, w1) = (inr (scalar (ln (2 * PI))), (c, advance 1 w1)).
Proof.
  eexists _, _. split; [reflexivity|]. split.
  - reals. repeat f_equal; lra.
  - erewrite (value_of_valid_gaussian (Sequence (numbers [1; 2])) (Sequence [p0; p1])
                                      (sigma_vector [1; 1]) w12);
      [|reflexivity..].
    unfold tensor_neg, scalar. cbn [t_shape t_data map negate backend]. do 4 f_equal.
    reals.
    repeat (match goal with
            | |- context [sqrt ?a] =>
                lazymatch a with
                | IZR _ => fail
                | _ => replace a with 1 by lra
                end
            end; rewrite ?sqrt_1).
    rewrite ln_1. replace (INR 2) with 2 by (simpl; lra). lra.
Qed.

(** Replace the argument of a square root by the square of [c]. *)
Ltac sqrt_of c :=
  repeat (match goal with
          | |- context [sqrt ?a] =>
              lazymatch a with
              | Rmult c c => fail
              | _ => replace a with (c * c) by lra
              end
          end);
  rewrite ?(sqrt_square c) by lra.

Lemma scenario_mutated_parameters :
  exists c w1,
    GaussianConstraint (Sequence (numbers [1])) (Sequence [p0]) (sigma_param p1) w11
    = (inr c, w1) /\
    value (c, w1) = (inr (scalar (ln (2 * PI) / 2)), (c, advance 1 w1)) /\
    value (c, set_value p0 2 w1)
    = (inr (scalar (ln (2 * PI) / 2 + 1 / 2)), (c, advance 1 (set_value p0 2 w1))) /\
    value (c, set_value p1 2 w1)
    = (inr (scalar (ln (2 * PI) / 2 + ln 2)), (c, advance 1 (set_value p1 2 w1))).
Proof.
  eexists _, _. split; [reflexivity|].
  split; [|split];
    (erewrite (value_of_valid_gaussian (Sequence (numbers [1])) (Sequence [p0])
                                       (sigma_param p1) w11);
     [|reflexivity..]);
    unfold tensor_neg, scalar; cbn [t_shape t_data map negate backend]; do 4 f_equal;
    reals.
  - sqrt_of 1. rewrite ln_1. replace (INR 1) with 1 by (simpl; lra). lra.
  - sqrt_of 1. rewrite ln_1. replace (INR 1) with 1 by (simpl; lra). lra.
  - sqrt_of 2. replace (INR 1) with 1 by (simpl; lra). lra.
Qed.

(** C1. With valid input of consistent size [N], [value()] is the negated
    log-density of the backend's multivariate normal at the observed values,
    for the current values of [mu] and the covariance [sigma²] (1 x 1) for a
    scalar [sigma], [diag(sigma_i²)] for a vector, [sigma] for a matrix.  In
    exact arithmetic, for [mu = [1, 2]], [sigma = [1, 1]] and [x = [1, 2]]
    the covariance is the 2 x 2 identity and the value is [log (2 pi)]. *)
Theorem gaussian_value_is_negated_log_density :
  (forall (F : Type) (B : Backend F) (x : Container (Numerical F))
          (mu : Container ZfitParameter) (sigma : ArrayLike F)
          (w0 : World F) (c : Obj F) (w1 w : World F) (lp : Tensor F),
     GaussianConstraint x mu sigma w0 = (inr c, w1) ->
     well_shaped sigma ->
     let xs := convert_to_container x in
     let ms := convert_to_container mu in
     let N := length ms in
     let cov := spec_covariance (sigma_tensor w sigma) in
     covariance_dims (a_shape sigma) = (N, N) ->
     mvn_check (params_tensor w ms) cov true = inr tt ->
     mvn_log_prob (params_tensor w ms) cov (vector (map (numerical_value w) xs)) = inr lp ->
     value (c, w) = (inr (tensor_neg lp), (c, advance 1 w))) /\
  (exists c w1,
     GaussianConstraint (Sequence (numbers [1; 2])) (Sequence [p0; p1]) (sigma_vector [1; 1]) w12
     = (inr c, w1) /\
     covariance (c, w1) = (inr {| t_shape := [2; 2]%nat; t_data := [1; 0; 0; 1] |}, (c, w1)) /\
     value (c, w1) = (inr (scalar (ln (2 * PI))), (c, advance 1 w1))).
Proof.
  split.
  - intros F B x mu sigma w0 c w1 w lp Hc Hwf xs ms N cov Hd Hcheck Hlp.
    by apply (value_of_valid_gaussian x mu sigma w0 c w1 w lp).
  - exact scenario_two_independent.
Qed.

(** The general statement of C1 at the constraint of the scenario. *)
Lemma gaussian_value_witness :
  let c := gaussian_obj (numbers [1; 2]) [p0; p1] (sigma_vector [1; 1]) 0 in
  let w1 := advance 2 w12 in
  let cov := spec_covariance (sigma_tensor w1 (sigma_vector [1; 1])) in
  value (c, w1)
  = (inr (tensor_neg (scalar (log_normal (params_tensor w1 [p0; p1]) cov (vector [1; 2])))),
     (c, advance 1 w1)).
Proof.
  intros c w1 cov.
  apply (proj1 gaussian_value_is_negated_log_density R backend
               (Sequence (numbers [1; 2])) (Sequence [p0; p1]) (sigma_vector [1; 1])
               w12 c w1 w1);
    reflexivity.
Defined.

(** C2 does not hold as stated: with [x] of length 2 and [mu] of length 3
    the failure is raised by the call of the class, no constraint exists to
    be accessed, and the message gives two lengths. *)
Lemma gaussian_length_mismatch_raises_at_construction :
  GaussianConstraint (Sequence (numbers [1; 2])) (Sequence [p0; p1; p2]) (sigma_scalar 1) w0
  = (inl (ShapeIncompatibleError
            "x and params have to be the same lenght. Currentlyx: 2, params: 3"), w0) /\
  ~ exists c w1,
      GaussianConstraint (Sequence (numbers [1; 2])) (Sequence [p0; p1; p2]) (sigma_scalar 1) w0
      = (inr c, w1).
Proof.
  split; [reflexivity|]. intros (c & w1 & Hc). discriminate Hc.
Qed.

(** C2 at [x] and [mu] of length 2 and a [sigma] of length 3: the constraint
    is built, and both accesses raise with the three sizes. *)
Lemma gaussian_sizes_witness :
  exists c w1,
    GaussianConstraint (Sequence (numbers [1; 2])) (Sequence [p0; p1]) (sigma_vector [1; 1; 1]) w0
    = (inr c, w1) /\
    covariance (c, w1)
    = (inl (ShapeIncompatibleError
              "x, mu and sigma have to have the same length. Currentlyx: 2, mu: 2, covariance (from sigma): (3, 3)"),
       (c, w1)) /\
    value (c, w1)
    = (inl (ShapeIncompatibleError
              "x, mu and sigma have to have the same length. Currentlyx: 2, mu: 2, covariance (from sigma): (3, 3)"),
       (c, w1)).
Proof.
  destruct (proj2 (gaussian_sizes_checked_at_construction_then_lazily
                     (Sequence (numbers [1; 2])) (Sequence [p0; p1])
                     (sigma_vector [1; 1; 1]) w0) eq_refl)
    as (c & w1 & Hc & Hlazy).
  exists c, w1. split; [exact Hc|]. exact (Hlazy w1 eq_refl).
Defined.

(** C6. Each access of [distribution] evaluates [dist_params] and
    [dist_kwargs] (calling the one that is callable), joins them with the
    name of the constraint followed by [_tfp], and calls the distribution
    class: nothing is kept from an earlier access.  For a Gaussian
    constraint the instance is a new object bound to the values that [mu]
    and [sigma] have at that moment, so that [value()] follows a parameter
    bound into [mu] or [sigma] when the caller changes it. *)
Theorem distribution_is_recomputed_on_each_access :
  (forall (F : Type) (B : Backend F) (self : Obj F) (w : World F)
          (df : DistributionFields) (b : BaseFields),
     dist self = Some df -> base self = Some b ->
     distribution (self, w) =
       let r1 := evaluated (dist_params df) (self, w) in
       match r1.1 with
       | inl e => (inl e, r1.2)
       | inr params =>
           let r2 := evaluated (dist_kwargs df) r1.2 in
           match r2.1 with
           | inl e => (inl e, r2.2)
           | inr kwargs =>
               match add_keywords params kwargs with
               | inl e => (inl e, r2.2)
               | inr kw =>
                   match add_keywords kw [("name", AStr (b_name b +:+ "_tfp"))] with
                   | inl e => (inl e, r2.2)
                   | inr kw => lift (_distribution df kw) r2.2
                   end
               end
           end
       end) /\
  (forall (F : Type) (B : Backend F) (d : pydict string (Arg F))
          (f : ST (World F) (pydict string (Arg F))) (s : Obj F * World F),
     evaluated (Mapping d) s = (inr d, s) /\ evaluated (Callable f) s = lift f s) /\
  (forall (F : Type) (B : Backend F) (x : Container (Numerical F))
          (mu : Container ZfitParameter) (sigma : ArrayLike F)
          (w0 : World F) (c : Obj F) (w1 w : World F),
     GaussianConstraint x mu sigma w0 = (inr c, w1) ->
     let ms := convert_to_container mu in
     let N := length ms in
     let cov := built_covariance (sigma_tensor w sigma) in
     covariance_dims (a_shape sigma) = (N, N) ->
     mvn_check (params_tensor w ms) cov true = inr tt ->
     distribution (c, w) =
       (inr (mvn_instance (next_id w) (params_tensor w ms) cov), (c, advance 1 w))) /\
  (exists c w1,
     GaussianConstraint (Sequence (numbers [1])) (Sequence [p0]) (sigma_param p1) w11
     = (inr c, w1) /\
     value (c, w1) = (inr (scalar (ln (2 * PI) / 2)), (c, advance 1 w1)) /\
     value (c, set_value p0 2 w1)
     = (inr (scalar (ln (2 * PI) / 2 + 1 / 2)), (c, advance 1 (set_value p0 2 w1))) /\
     value (c, set_value p1 2 w1)
     = (inr (scalar (ln (2 * PI) / 2 + ln 2)), (c, advance 1 (set_value p1 2 w1)))).
Proof.
  split; [|split; [|split]].
  - intros F B self w df b. apply run_distribution.
  - intros F B d f s. split; reflexivity.
  - intros F B x mu sigma w0 c w1 w Hc ms N cov Hd Hcheck.
    by apply (distribution_of_valid_gaussian x mu sigma w0 c w1 w).
  - exact scenario_mutated_parameters.
Qed.

(** C6 at a concrete constraint: two accesses, the parameter of [mu] set in
    between, give two instances with different identities, each bound to the
    value the parameter had. *)
Lemma distribution_recomputed_witness :
  let c := gaussian_obj (numbers [1]) [p0] (sigma_param p1) 0 in
  let w1 := advance 1 w11 in
  let w2 := set_value p0 2 (advance 1 w1) in
  distribution (c, w1)
  = (inr (mvn_instance 1 (vector [1]) {| t_shape := [1; 1]%nat; t_data := [1 * 1] |}),
     (c, advance 1 w1)) /\
  distribution (c, w2)
  = (inr (mvn_instance 2 (vector [2]) {| t_shape := [1; 1]%nat; t_data := [1 * 1] |}),
     (c, advance 1 w2)).
Proof.
  intros c w1 w2. split.
  - apply (proj1 (proj2 (proj2 distribution_is_recomputed_on_each_access)) R backend
                 (Sequence (numbers [1])) (Sequence [p0]) (sigma_param p1) w11 c w1 w1);
      reflexivity.
  - apply (proj1 (proj2 (proj2 distribution_is_recomputed_on_each_access)) R backend
                 (Sequence (numbers [1])) (Sequence [p0]) (sigma_param p1) w11 c w1 w2);
      reflexivity.
Defined.

(** C4 at [sigma = [1, 1]]. *)
Lemma covariance_by_rank_witness :
  covariance (c_two, w_two)
  = (inr (tensor_diag (z_pow2 (vector [1; 1]))), (c_two, w_two)) /\
  t_shape (tensor_diag (z_pow2 (vector [1; 1]))) = [2; 2]%nat /\
  entry 0 (tensor_diag (z_pow2 (vector [1; 1]))) 0 0 = 1 * 1 /\
  entry 0 (tensor_diag (z_pow2 (vector [1; 1]))) 0 1 = 0.
Proof.
  destruct (covariance_classifies_sigma_by_rank
              (Sequence (numbers [1; 2])) (Sequence [p0; p1]) (sigma_vector [1; 1])
              w12 c_two w_two w_two eq_refl)
    as (_ & Hvector & _).
  destruct (Hvector [1; 1] eq_refl eq_refl) as (Hcov & Hshape & Hentry).
  split; [exact Hcov|]. split; [exact Hshape|]. split.
  - exact (Hentry 0%nat 0%nat (Nat.lt_0_succ 1) (Nat.lt_0_succ 1)).
  - exact (Hentry 0%nat 1%nat (Nat.lt_0_succ 1) (Nat.lt_succ_diag_r 1)).
Defined.

(** C5 at the constraint of the scenario, with three draws. *)
Lemma sample_witness :
  let h0 := {| h_id := 0; h_name := "a_obs"; h_source := Number 1 |} in
  let h1 := {| h_id := 1; h_name := "b_obs"; h_source := Number 2 |} in
  let draw := {| t_shape := [3; 2]%nat; t_data := [1; 2; 1; 2; 1; 2] |} in
  let w' := {| param_value := param_value w_two; next_id := 3; rng := 1 |} in
  exists d,
    sample 3 (c_two, w_two) = (inr d, (c_two, w')) /\
    dict_keys d = [h0; h1] /\
    dict_get d h0 = Some {| t_shape := [3]%nat;
                            t_data := map (fun r => entry 0 draw r 0) (seq 0 3) |} /\
    dict_get d h1 = Some {| t_shape := [3]%nat;
                            t_data := map (fun r => entry 0 draw r 1) (seq 0 3) |}.
Proof.
  intros h0 h1 draw w'.
  destruct (sample_maps_each_holder_to_its_column
              (Sequence (numbers [1; 2])) (param_slots [p0; p1]) "GaussianConstraint"
              ztypes_float (empty_obj cls_GaussianConstraint) w12
              (set_x [h0; h1]
                     (set_base {| b_name := "GaussianConstraint"; b_dtype := ztypes_float;
                                  b_params := param_slots [p0; p1] |}
                               (empty_obj cls_GaussianConstraint)))
              w_two c_two w_two 3 draw w' eq_refl eq_refl eq_refl eq_refl)
    as (d & Hd & Hkeys & _ & Hcols).
  exists d. split; [exact Hd|]. split; [exact Hkeys|]. split.
  - exact (proj1 (proj2 (Hcols 0%nat h0 eq_refl))).
  - exact (proj1 (proj2 (Hcols 1%nat h1 eq_refl))).
Defined.


(** C7 at [SimpleConstraint(func=lambda: 3.0, params=[p0])], for two values
    of [p0]. *)
Lemma simple_value_witness :
  exists c,
    SimpleConstraint (mret (scalar 3)) (Sequence [p0]) w0 = (inr c, w0) /\
    value (c, set_value p0 5 w0) = (inr (scalar 3), (c, set_value p0 5 w0)) /\
    value (c, set_value p0 7 w0) = (inr (scalar 3), (c, set_value p0 7 w0)).
Proof.
  destruct (simple_value_is_function_result (mret (scalar 3)) (Sequence [p0]) w0)
    as (c & Hc & _ & Hconst).
  exists c. split; [exact Hc|]. split.
  - exact (Hconst (scalar 3) eq_refl p0 5 w0).
  - exact (Hconst (scalar 3) eq_refl p0 7 w0).
Defined.

(** C8 at the constraint of the scenario. *)
Lemma dependents_witness :
  get_dependents (c_two, w_two) = (inr (list_to_set [p0; p1]), (c_two, w_two)).
Proof.
  exact (proj2 dependents_are_params
               (Sequence (numbers [1; 2])) (Sequence [p0; p1]) (sigma_vector [1; 1])
               w12 c_two w_two w_two eq_refl).
Defined.

(** C10 at the constraint of the scenario. *)
Lemma samplable_structure_witness :
  exists hs b g,
    _x c_two = Some hs /\ base c_two = Some b /\ gauss c_two = Some g /\
    dict_values (b_params b) = [p0; p1] /\ _mu g = [p0; p1] /\ length hs = 2%nat.
Proof.
  exact (proj1 (proj2 samplable_structure_is_fixed)
               (Sequence (numbers [1; 2])) (Sequence [p0; p1]) (sigma_vector [1; 1])
               w12 c_two w_two eq_refl).
Defined.

(** Further runs of the code on small inputs. *)

Example samplable_mismatch_example :
  new cls_SamplableConstraint
      (SamplableConstraint_init (Sequence (numbers [1; 2])) (param_slots [p0; p1; p2])
                                "SamplableConstraint" ztypes_float) w0
  = (inl (ShapeIncompatibleError
            "x and params have to be the same lenght. Currentlyx: 2, params: 3"), w0).
Proof. reflexivity. Qed.

Example scalar_observation_example :
  exists c, new cls_SamplableConstraint
                (SamplableConstraint_init (Single (Number 7)) (param_slots [p0])
                                          "SamplableConstraint" ztypes_float) w0
            = (inr c, advance 1 w0) /\
            _x c = Some [{| h_id := 0; h_name := "a_obs"; h_source := Number 7 |}].
Proof. eexists. split; reflexivity. Qed.

Example matrix_sigma_example :
  let sigma := {| a_shape := [2; 2]%nat; a_items := numbers [2; 1; 1; 2] |} in
  covariance (gaussian_obj (numbers [1; 2]) [p0; p1] sigma 0, w_two)
  = (inr {| t_shape := [2; 2]%nat; t_data := [2; 1; 1; 2] |},
     (gaussian_obj (numbers [1; 2]) [p0; p1] sigma 0, w_two)).
Proof. reflexivity. Qed.

Example scalar_sigma_two_parameters_example :
  (covariance (gaussian_obj (numbers [1; 2]) [p0; p1] (sigma_scalar 1) 0, w_two)).1
  = inl (ShapeIncompatibleError
           "x, mu and sigma have to have the same length. Currentlyx: 2, mu: 2, covariance (from sigma): (1, 1)").
Proof. reflexivity. Qed.

Example duplicate_keyword_example :
  add_keywords (F := R) [("loc", ABool true)] [("loc", ABool false)]
  = inl (TypeError "got multiple values for keyword argument").
Proof. reflexivity. Qed.

End Scenarios.

(** * Further properties of the code *)

(** ** What reaches the distribution class, and what does not *)

Section Calls.
Context {F : Type} `{!Backend F}.
Implicit Types (self : Obj F) (w : World F).

Lemma run_evaluated_gaussian self w (ms : list ZfitParameter) :
  evaluated (GaussianDistParams ms) (self, w) =
    match covariance (self, w) with
    | (inl e, s) => (inl e, s)
    | (inr cov, s) => (inr [("loc", AParams ms); ("covariance_matrix", ATensor cov)], s)
    end.
Proof.
  cbn [evaluated callable call]. rewrite run_bind.
  by destruct (covariance (self, w)) as [[e|cov] s].
Qed.

(** Each access of [distribution] on a Gaussian constraint calls
    [MultivariateNormalFullCovariance] with exactly four keywords, in this
    order: [loc], the tuple of the [mu] parameters; [covariance_matrix], what
    [covariance] returns at that moment; [validate_args=True]; and
    [name="GaussianConstraint_tfp"].  When [covariance] raises, the class is
    not called and the failure is the one of [covariance]. *)
Theorem gaussian_distribution_keywords (x : Container (Numerical F))
    (mu : Container ZfitParameter) (sigma : ArrayLike F) w0 (c : Obj F) w1 w :
  GaussianConstraint x mu sigma w0 = (inr c, w1) ->
  (forall cov, covariance (c, w) = (inr cov, (c, w)) ->
     distribution (c, w) =
       lift (MultivariateNormalFullCovariance
               [("loc", AParams (convert_to_container mu));
                ("covariance_matrix", ATensor cov);
                ("validate_args", ABool true);
                ("name", AStr "GaussianConstraint_tfp")])
            (c, w)) /\
  (forall e, covariance (c, w) = (inl e, (c, w)) ->
     distribution (c, w) = (inl e, (c, w))).
Proof.
  intros (_ & -> & _)%GaussianConstraint_inv. split.
  - intros cov Hcov. erewrite run_distribution by reflexivity.
    cbn [dist_params dist_kwargs _distribution b_name]. cbn zeta.
    rewrite run_evaluated_gaussian, Hcov. reflexivity.
  - intros e Hcov. erewrite run_distribution by reflexivity.
    cbn [dist_params]. cbn zeta.
    rewrite run_evaluated_gaussian, Hcov. reflexivity.
Qed.

Lemma add_keywords_clash (kw more : pydict string (Arg F)) (k : string) :
  is_Some (dict_get kw k) -> In k (dict_keys more) ->
  add_keywords kw more = inl (TypeError "got multiple values for keyword argument").
Proof.
  intros Hk Hin. unfold add_keywords.
  assert (existsb (fun k => bool_decide (is_Some (dict_get kw k))) (dict_keys more) = true) as ->.
  { apply existsb_exists. exists k. split; [done|]. by apply bool_decide_eq_true. }
  reflexivity.
Qed.

Lemma dict_get_app_l {V} (d1 d2 : pydict string V) (k : string) :
  is_Some (dict_get d1 k) -> is_Some (dict_get (d1 ++ d2) k).
Proof.
  induction d1 as [|[k' v'] d1 IH]; simpl; [by intros [? ?]|].
  destruct (key_eqb k' k); [done|]. exact IH.
Qed.

Lemma dict_get_app_r {V} (d1 d2 : pydict string V) (k : string) :
  is_Some (dict_get d2 k) -> is_Some (dict_get (d1 ++ d2) k).
Proof.
  intros H2. induction d1 as [|[k' v'] d1 IH]; simpl; [done|].
  by destruct (key_eqb k' k).
Qed.

(** A distribution constraint whose [dist_params] and [dist_kwargs] are
    dicts never lets one override the other, nor the name: when they share
    a key, or when one of them has the key [name], every access of
    [distribution] raises [TypeError], the distribution class is not called
    and nothing changes. *)
Theorem distribution_refuses_repeated_keywords (x : Container (Numerical F))
    (params : pydict string ZfitParameter) (factory : Factory)
    (dparams dkwargs : pydict string (Arg F)) w0 (c : Obj F) w1 w :
  DistributionConstraint x params factory (Mapping dparams) (Some (Mapping dkwargs)) w0
  = (inr c, w1) ->
  (exists k, is_Some (dict_get dparams k) /\ In k (dict_keys dkwargs)) \/
  is_Some (dict_get dparams "name") \/ is_Some (dict_get dkwargs "name") ->
  exists msg, distribution (c, w) = (inl (TypeError msg), (c, w)).
Proof.
  unfold DistributionConstraint, new, DistributionConstraint_init.
  rewrite run_bind, run_SamplableConstraint_init. cbn zeta.
  destruct (_ =? _); [|discriminate].
  cbn [assign modify fst snd]. intros [= <- <-] Hclash.
  exists "got multiple values for keyword argument".
  erewrite run_distribution by reflexivity.
  cbn [dist_params dist_kwargs _distribution b_name evaluated callable]. cbn zeta.
  rewrite !run_ret. cbn [fst snd].
  destruct (add_keywords dparams dkwargs) as [e|kw] eqn:Hkw.
  - destruct Hclash as [(k & Hk & Hin) | Hname].
    + rewrite (add_keywords_clash _ _ k Hk Hin) in Hkw. by injection Hkw as <-.
    + unfold add_keywords in Hkw. destruct (existsb _ _); [|discriminate].
      by injection Hkw as <-.
  - assert (kw = dparams ++ dkwargs) as ->.
    { unfold add_keywords in Hkw. destruct (existsb _ _); [discriminate|].
      by injection Hkw. }
    destruct Hclash as [(k & Hk & Hin) | Hname].
    + by rewrite (add_keywords_clash _ _ k Hk Hin) in Hkw.
    + rewrite (add_keywords_clash _ _ "name"); [done| |by left].
      destruct Hname; [by apply dict_get_app_l | by apply dict_get_app_r].
Qed.

End Calls.

(** ** Failures are not caught *)

Section Failures.
Context {F : Type} `{!Backend F}.
Implicit Types (self : Obj F) (w : World F).

(** [value()] and [sample(n)] of a distribution constraint catch nothing:
    a failure of the [distribution] property, of [log_prob] or of the
    sampling method of the instance is the failure of the call, with the
    state it left. *)
Theorem distribution_failures_reach_the_caller self w (n : nat) :
  cls self = cls_DistributionConstraint \/ cls self = cls_GaussianConstraint ->
  (forall e s, distribution (self, w) = (inl e, s) ->
     value (self, w) = (inl e, s) /\ sample n (self, w) = (inl e, s)) /\
  (forall d w1 xs e w2,
     distribution (self, w) = (inr d, (self, w1)) -> _x self = Some xs ->
     log_prob d (holders_tensor w1 xs) w1 = (inl e, w2) ->
     value (self, w) = (inl e, (self, w2))) /\
  (forall d w1 e w2,
     distribution (self, w) = (inr d, (self, w1)) ->
     d_sample d n w1 = (inl e, w2) ->
     sample n (self, w) = (inl e, (self, w2))).
Proof.
  intros Hcls.
  assert (value (self, w) = DistributionConstraint__value (self, w)) as Hv.
  { unfold value, _value. rewrite run_bind. cbn [gets fst snd].
    by destruct Hcls as [-> | ->]. }
  assert (_sample n (self, w) = DistributionConstraint__sample n (self, w)) as Hs.
  { unfold _sample. rewrite run_bind. cbn [gets fst snd].
    by destruct Hcls as [-> | ->]. }
  split; [|split].
  - intros e s Hd. split.
    + rewrite Hv. unfold DistributionConstraint__value. by rewrite run_bind, Hd.
    + unfold sample. rewrite run_bind, Hs. unfold DistributionConstraint__sample.
      by rewrite run_bind, Hd.
  - intros d w1 xs e w2 Hd Hx Hlp.
    rewrite Hv. unfold DistributionConstraint__value.
    rewrite run_bind, Hd, run_bind, (run_x_array _ _ _ Hx), run_bind, run_lift, Hlp.
    reflexivity.
  - intros d w1 e w2 Hd Hsm.
    unfold sample. rewrite run_bind, Hs. unfold DistributionConstraint__sample.
    rewrite run_bind, Hd, run_lift, Hsm. reflexivity.
Qed.

End Failures.

(** ** More on the covariance *)

Section Covariance.
Context {F : Type} `{!Backend F}.
Implicit Types (self : Obj F) (w : World F).

Lemma built_covariance_dims (t : Tensor F) :
  t_shape (built_covariance t) !! 0 = Some (covariance_dims (t_shape t)).1 /\
  t_shape (built_covariance t) !! 1 = Some (covariance_dims (t_shape t)).2.
Proof. unfold built_covariance. by destruct t as [[|n [|m rest]] data]. Qed.

(** Whenever [covariance] of a Gaussian constraint returns, what it returns
    has at least two dimensions and the first two are both [N], the common
    length of [x] and [mu]; the access changes nothing. *)
Theorem covariance_has_the_size_of_mu (x : Container (Numerical F))
    (mu : Container ZfitParameter) (sigma : ArrayLike F) w0 (c : Obj F) w1 w
    (cov : Tensor F) (s : Obj F * World F) :
  GaussianConstraint x mu sigma w0 = (inr c, w1) ->
  covariance (c, w) = (inr cov, s) ->
  let N := length (convert_to_container mu) in
  s = (c, w) /\
  length (convert_to_container x) = N /\
  t_shape cov !! 0 = Some N /\ t_shape cov !! 1 = Some N.
Proof.
  intros (Hlen & -> & _)%GaussianConstraint_inv Hcov N.
  rewrite run_covariance_gaussian in Hcov by done.
  unfold covariance_result in Hcov.
  destruct (sizes_agree _ _ _) eqn:Hagree; [|discriminate].
  injection Hcov as <- <-.
  destruct (built_covariance_dims (sigma_tensor w sigma)) as [-> ->].
  unfold sizes_agree in Hagree.
  apply andb_prop in Hagree as [[_ H1]%andb_prop H2].
  apply Nat.eqb_eq in H1, H2. fold N in H1.
  repeat split; [done|by rewrite <- H1|by rewrite <- H2, <- H1].
Qed.

(** The closure only asks whether [sigma] has more than one dimension: a
    [sigma] of any rank from 2 on whose two leading dimensions are [N] is
    returned as it is by [covariance], a rank of 3 or more included. *)
Theorem sigma_of_higher_rank_is_passed_through (x : Container (Numerical F))
    (mu : Container ZfitParameter) (sigma : ArrayLike F) w0 (c : Obj F) w1 w
    (rest : list nat) :
  GaussianConstraint x mu sigma w0 = (inr c, w1) ->
  let N := length (convert_to_container mu) in
  a_shape sigma = N :: N :: rest ->
  covariance (c, w) = (inr (sigma_tensor w sigma), (c, w)).
Proof.
  intros (Hlen & -> & _)%GaussianConstraint_inv N Hshape.
  rewrite run_covariance_gaussian by done.
  unfold covariance_result, built_covariance, sizes_agree.
  cbn [sigma_tensor t_shape]. rewrite Hshape, Hlen. fold N.
  cbn [covariance_dims fst snd]. by rewrite !Nat.eqb_refl.
Qed.



(** The tensor of the observed values has one entry per observed value, in
    the order of [x], and each entry is read when the tensor is asked for:
    a literal gives itself, a parameter its value at that moment. *)
Theorem x_array_reads_current_observations (x : Container (Numerical F))
    (params : pydict string ZfitParameter) (name : string) (dtype : DType)
    self0 w0 self1 w1 self w :
  SamplableConstraint_init x params name dtype (self0, w0) = (inr tt, (self1, w1)) ->
  _x self = _x self1 ->
  _x_array (self, w)
  = (inr {| t_shape := [length (convert_to_container x)];
            t_data := map (numerical_value w) (convert_to_container x) |}, (self, w)).
Proof.
  intros Hinit Hx.
  rewrite run_SamplableConstraint_init in Hinit. cbn zeta in Hinit.
  destruct (_ =? _) eqn:Hlen; [|discriminate].
  apply Nat.eqb_eq in Hlen. injection Hinit as <- _. cbn [set_x _x] in Hx.
  rewrite (run_x_array _ _ _ Hx). unfold holders_tensor, vector.
  rewrite values_obs_holders, length_map; [done|].
  unfold dict_values. by rewrite length_map.
Qed.

End Covariance.

(** ** More on sampling *)

Section Draws.
Context {F : Type} `{!Backend F}.
Implicit Types (self : Obj F) (w : World F).

(** The comprehension of [sample] stops at the first holder whose column
    the draw does not have. *)
Lemma run_columns_short (draw : Tensor F) (n m : nat) (hs : list (Holder F)) (a : nat)
    (s : Obj F * World F) :
  t_shape draw = [n; m] -> a <= m -> m < a + length hs ->
  mapM (fun ip : nat * Holder F => col ← of_result (column zero draw ip.1); mret (ip.2, col))
       (imap (fun i p => (a + i, p)) hs) s
  = (inl (InvalidArgumentError "slice index out of bounds"), s).
Proof.
  intros Hshape. revert a. induction hs as [|p hs IH]; intros a Ha Hm; [simpl in Hm; lia|].
  cbn [imap mapM]. rewrite run_bind, run_bind. cbn [fst snd of_result].
  destruct (decide (a = m)) as [->|Hne].
  - unfold column. rewrite Hshape, Nat.add_0_r, Nat.ltb_irrefl. reflexivity.
  - rewrite (column_of_matrix draw n m) by (done || lia).
    rewrite run_ret, run_bind.
    rewrite (imap_ext _ (fun i q => (S a + i, q))) by (intros; simpl; f_equal; lia).
    rewrite (IH (S a)) by (simpl in Hm; lia). reflexivity.
Qed.

Lemma run_sample (n m : nat) self w (draw : Tensor F) w' (hs : list (Holder F)) :
  _x self = Some hs ->
  (forall i j a b, hs !! i = Some a -> hs !! j = Some b -> i < j -> key_eqb a b = false) ->
  _sample n (self, w) = (inr draw, (self, w')) ->
  t_shape draw = [n; m] ->
  sample n (self, w) =
    if length hs <=? m
    then (inr (imap (fun i h => (h, {| t_shape := [n];
                                       t_data := map (fun r => entry zero draw r i) (seq 0 n) |}))
                    hs),
          (self, w'))
    else (inl (InvalidArgumentError "slice index out of bounds"), (self, w')).
Proof.
  intros Hx Hdistinct Hdraw Hshape.
  unfold sample. rewrite run_bind, Hdraw, run_bind, (run_x _ _ _ Hx), run_bind.
  destruct (length hs <=? m) eqn:Hm.
  - apply Nat.leb_le in Hm.
    rewrite (run_columns _ (fun i => {| t_shape := [n];
                                        t_data := map (fun r => entry zero draw r i) (seq 0 n) |})).
    + rewrite run_ret, dict_of_items_distinct; [done|].
      intros i j a b Ha Hb Hlt. rewrite list_lookup_imap in Ha, Hb.
      destruct (hs !! i) as [hi|] eqn:Ei; [|done].
      destruct (hs !! j) as [hj|] eqn:Ej; [|done].
      simpl in Ha, Hb. injection Ha as <-. injection Hb as <-.
      exact (Hdistinct _ _ _ _ Ei Ej Hlt).
    + intros i Hi. apply (column_of_matrix draw n m); [done|lia].
  - apply Nat.leb_gt in Hm.
    rewrite (run_columns_short draw n m hs 0) by (done || lia). reflexivity.
Qed.

(** [sample(n)] never compares the width of the draw with the number of
    observed values.  When [_sample(n)] returns a matrix with fewer columns
    than there are holders, [sample(n)] fails on the first missing column
    and returns no partial dict; when the matrix has more columns, the
    dict has one entry per holder, column [i] at the [i]-th holder, and the
    other columns are dropped. *)
Theorem sample_takes_one_column_per_holder (x : Container (Numerical F))
    (params : pydict string ZfitParameter) (name : string) (dtype : DType)
    self0 w0 self1 w1 self w (n m : nat) (draw : Tensor F) w' :
  SamplableConstraint_init x params name dtype (self0, w0) = (inr tt, (self1, w1)) ->
  _x self = _x self1 ->
  _sample n (self, w) = (inr draw, (self, w')) ->
  t_shape draw = [n; m] ->
  let hs := obs_holders (next_id w0) (convert_to_container x) (dict_values params) in
  (m < dict_len params -> exists e, sample n (self, w) = (inl e, (self, w'))) /\
  (dict_len params <= m ->
     sample n (self, w)
     = (inr (imap (fun i h => (h, {| t_shape := [n];
                                     t_data := map (fun r => entry zero draw r i) (seq 0 n) |}))
                  hs),
        (self, w'))).
Proof.
  intros Hinit Hx Hdraw Hshape hs.
  rewrite run_SamplableConstraint_init in Hinit. cbn zeta in Hinit.
  destruct (_ =? _) eqn:Hlen; [|discriminate].
  apply Nat.eqb_eq in Hlen. injection Hinit as <- _.
  cbn [set_x _x] in Hx. fold hs in Hx.
  assert (length hs = dict_len params) as Hhs.
  { unfold hs. rewrite length_obs_holders; [done|].
    unfold dict_values. rewrite length_map. exact Hlen. }
  pose proof (run_sample n m self w draw w' hs Hx
                (obs_holders_distinct _ _ _) Hdraw Hshape) as Hrun.
  rewrite Hhs in Hrun. split; intros Hm.
  - apply Nat.leb_gt in Hm. rewrite Hm in Hrun. by eexists.
  - apply Nat.leb_le in Hm. by rewrite Hm in Hrun.
Qed.

(** [sample(n)] of a Gaussian constraint with consistent sizes: one new
    multivariate normal is built, centred at the current values of [mu] with
    the current covariance, and asked for [n] joint draws; the result maps
    the [i]-th holder of [x] to column [i] of the draw.  The call uses the
    random source once and sets no value: the parameters and the observed
    values are as before. *)
Theorem gaussian_sample_is_drawn_around_mu (x : Container (Numerical F))
    (mu : Container ZfitParameter) (sigma : ArrayLike F) w0 (c : Obj F) w1 w
    (n : nat) (draw : Tensor F) :
  GaussianConstraint x mu sigma w0 = (inr c, w1) ->
  let xs := convert_to_container x in
  let ms := convert_to_container mu in
  let N := length ms in
  let cov := built_covariance (sigma_tensor w sigma) in
  covariance_dims (a_shape sigma) = (N, N) ->
  mvn_check (params_tensor w ms) cov true = inr tt ->
  mvn_sample (params_tensor w ms) cov (rng w) n = inr draw ->
  t_shape draw = [n; N] ->
  sample n (c, w)
  = (inr (imap (fun i h => (h, {| t_shape := [n];
                                  t_data := map (fun r => entry zero draw r i) (seq 0 n) |}))
               (obs_holders (next_id w0) xs ms)),
     (c, {| param_value := param_value w; next_id := S (next_id w); rng := S (rng w) |})).
Proof.
  intros Hc xs ms N cov Hdims Hcheck Hdraw Hshape.
  pose proof (distribution_of_valid_gaussian x mu sigma w0 c w1 w Hc Hdims Hcheck) as Hd.
  apply GaussianConstraint_inv in Hc as (Hlen & -> & _). fold xs ms in Hlen, Hd |- *.
  rewrite (run_sample n N _ w draw
             {| param_value := param_value w; next_id := S (next_id w); rng := S (rng w) |}
             (obs_holders (next_id w0) xs ms)).
  - rewrite length_obs_holders by done. rewrite Hlen. fold N. by rewrite Nat.leb_refl.
  - reflexivity.
  - apply obs_holders_distinct.
  - unfold _sample. rewrite run_bind. cbn [gets fst snd gaussian_obj cls].
    unfold DistributionConstraint__sample. rewrite run_bind, Hd, run_lift.
    cbn [mvn_instance d_sample advance param_value next_id rng fst snd].
    fold ms cov. by rewrite Hdraw.
  - done.
Qed.

End Draws.

(** ** The value of a distribution constraint *)

Section DistributionValue.
Context {F : Type} `{!Backend F}.
Implicit Types (self : Obj F) (w : World F).

Lemma add_keywords_apart (kw more : pydict string (Arg F)) :
  Forall (fun k => dict_get kw k = None) (dict_keys more) ->
  add_keywords kw more = inr (kw ++ more).
Proof.
  intros Hnone. unfold add_keywords.
  destruct (existsb _ _) eqn:Hex; [|done].
  apply existsb_exists in Hex as (k & Hin & Hk).
  apply bool_decide_eq_true in Hk as [v Hv].
  rewrite Forall_forall in Hnone. rewrite (Hnone k) in Hv; [done|].
  by apply list_elem_of_In.
Qed.

(** [value()] of a distribution constraint whose [dist_params] and
    [dist_kwargs] are dicts with no key in common and no key [name]: the
    distribution class is called with the keywords of [dist_params], then
    those of [dist_kwargs], then [name="DistributionConstraint_tfp"]; the
    observed values are read after that call, and the value is the negated
    [log_prob] of the new instance at them. *)
Theorem distribution_constraint_value (x : Container (Numerical F))
    (params : pydict string ZfitParameter) (factory : Factory)
    (dparams dkwargs : pydict string (Arg F)) w0 (c : Obj F) w1 w
    (d : Distribution F) w2 (lp : Tensor F) w3 :
  DistributionConstraint x params factory (Mapping dparams) (Some (Mapping dkwargs)) w0
  = (inr c, w1) ->
  Forall (fun k => dict_get dparams k = None) (dict_keys dkwargs) ->
  dict_get (dparams ++ dkwargs) "name" = None ->
  factory (dparams ++ dkwargs ++ [("name", AStr "DistributionConstraint_tfp")]) w
  = (inr d, w2) ->
  log_prob d {| t_shape := [length (convert_to_container x)];
                t_data := map (numerical_value w2) (convert_to_container x) |} w2
  = (inr lp, w3) ->
  value (c, w) = (inr (tensor_neg lp), (c, w3)).
Proof.
  unfold DistributionConstraint, new, DistributionConstraint_init.
  rewrite run_bind, run_SamplableConstraint_init. cbn zeta.
  destruct (_ =? _) eqn:Hlen; [|discriminate]. apply Nat.eqb_eq in Hlen.
  cbn [assign modify fst snd]. intros [= <- <-] Hapart Hname Hd Hlp.
  unfold value, _value. rewrite run_bind.
  cbn [gets fst snd set_dist set_x set_base empty_obj cls].
  unfold DistributionConstraint__value. rewrite run_bind.
  erewrite run_distribution by reflexivity.
  cbn [dist_params dist_kwargs _distribution b_name evaluated callable]. cbn zeta.
  rewrite !run_ret. cbn [fst snd].
  rewrite add_keywords_apart, add_name_keyword by done.
  change ("DistributionConstraint" +:+ "_tfp") with "DistributionConstraint_tfp".
  rewrite <- app_assoc, run_lift, Hd. cbn [fst snd].
  rewrite run_bind, (run_x_array _ _ (obs_holders (next_id w0) (convert_to_container x)
                                                  (dict_values params))) by reflexivity.
  unfold holders_tensor, vector.
  rewrite values_obs_holders, length_map by (unfold dict_values; by rewrite length_map).
  by rewrite run_bind, run_lift, Hlp.
Qed.

End DistributionValue.

(** ** What the value depends on *)

Section Repeatable.
Context {F : Type} `{!Backend F}.
Implicit Types (self : Obj F) (w : World F).



End Repeatable.

(** ** Independent uncertainties in exact arithmetic

    With a vector [sigma] the covariance is diagonal; its Cholesky factor is
    the diagonal matrix of the [sigma_i], and the value of the constraint is
    the sum of one-dimensional penalties. *)

Section Independent.
Import Ideal Examples.
Local Open Scope R_scope.

Lemma dot_zeros_l (n : nat) (b : list R) : dot (replicate n 0) b = 0.
Proof.
  revert b. induction n as [|n IH]; intros [|v b]; simpl; try reflexivity.
  rewrite IH. lra.
Qed.

Lemma dot_short (y : list R) (s : R) : dot y (replicate (length y) 0 ++ [s]) = 0.
Proof. induction y as [|u y IH]; simpl; [reflexivity|]. rewrite IH. lra. Qed.

Lemma chol_left_zeros (n j : nat) (rest : list R) (prev : list (list R)) :
  length prev = n ->
  chol_left (replicate n 0 ++ rest) prev (replicate j 0) = replicate (j + n)%nat 0.
Proof.
  revert j prev. induction n as [|n IH]; intros j [|Lj prev] Hlen; simpl in Hlen; try lia.
  - rewrite Nat.add_0_r. by destruct rest.
  - cbn [replicate app chol_left]. rewrite dot_zeros_l.
    replace ((0 - 0) / List.last Lj 1) with 0 by (unfold Rdiv; lra).
    replace (replicate j 0 ++ [0]) with (replicate (S j) 0).
    + rewrite IH by lia. f_equal. lia.
    + change [0] with (replicate 1 0). rewrite <- replicate_add. f_equal. lia.
Qed.

Lemma chol_row_diag (k : nat) (s : R) (t : list R) (L : list (list R)) :
  0 <= s -> length L = k ->
  chol_row (replicate k 0 ++ s * s :: t) L = replicate k 0 ++ [s].
Proof.
  intros Hs Hlen. unfold chol_row.
  pose proof (chol_left_zeros k 0 (s * s :: t) L Hlen) as Hz.
  cbn [replicate Nat.add] in Hz. rewrite Hz, dot_zeros_l, Hlen.
  rewrite app_nth2 by (rewrite length_replicate; lia).
  rewrite length_replicate, Nat.sub_diag. cbn [nth].
  replace (s * s - 0) with (s * s) by lra. by rewrite sqrt_square.
Qed.

Lemma cholesky_diag_from (ss : list R) (tl : nat -> list R) (k : nat) (L : list (list R)) :
  Forall (fun s => 0 <= s) ss -> length L = k ->
  fold_left (fun L a => L ++ [chol_row a L])
            (imap (fun i s => replicate (k + i) 0 ++ s * s :: tl (k + i)%nat) ss) L
  = L ++ imap (fun i s => replicate (k + i) 0 ++ [s]) ss.
Proof.
  revert k L. induction ss as [|s ss IH]; intros k L Hpos Hlen.
  - simpl. by rewrite app_nil_r.
  - apply Forall_cons in Hpos as [Hs Hpos].
    cbn [imap fold_left]. rewrite Nat.add_0_r, chol_row_diag by done.
    rewrite (imap_ext _ (fun i s => replicate (S k + i) 0 ++ s * s :: tl (S k + i)%nat)).
    2:{ intros i x _. simpl. by rewrite Nat.add_succ_r. }
    rewrite IH by (done || rewrite length_app; simpl; lia).
    rewrite <- app_assoc. cbn [app]. do 2 f_equal.
    apply imap_ext. intros i x _. simpl. by rewrite Nat.add_succ_r.
Qed.

Lemma forward_diag_from (ss bs y : list R) (k : nat) :
  length y = k ->
  fold_left (fun y (Lb : list R * R) => y ++ [(Lb.2 - dot y Lb.1) / List.last Lb.1 1])
            (zip (imap (fun i s => replicate (k + i) 0 ++ [s]) ss) bs) y
  = y ++ zip_with Rdiv bs ss.
Proof.
  revert bs y k. induction ss as [|s ss IH]; intros bs y k Hlen.
  - simpl. destruct bs; by rewrite app_nil_r.
  - destruct bs as [|b bs]; [simpl; by rewrite app_nil_r|].
    cbn [imap zip zip_with fold_left fst snd]. rewrite Nat.add_0_r.
    rewrite <- Hlen, dot_short, last_last.
    rewrite (imap_ext _ (fun i s => replicate (S (length y) + i) 0 ++ [s])).
    2:{ intros i x _. simpl. by rewrite Nat.add_succ_r. }
    rewrite IH by (rewrite length_app; simpl; lia).
    rewrite <- app_assoc. cbn [app]. do 3 f_equal. lra.
Qed.

Lemma sum_ln_diag_rows (ss : list R) (k : nat) :
  sum_ln_diag (imap (fun i s => replicate (k + i) 0 ++ [s]) ss)
  = fold_right (fun s acc => ln s + acc) 0 ss.
Proof.
  revert k. induction ss as [|s ss IH]; intros k; [reflexivity|].
  cbn [imap sum_ln_diag fold_right]. rewrite last_last.
  rewrite (imap_ext _ (fun i s => replicate (S k + i) 0 ++ [s])).
  2:{ intros i x _. simpl. by rewrite Nat.add_succ_r. }
  by rewrite IH.
Qed.

Lemma rows_of_flat_map (f : nat -> list R) (n m a : nat) :
  (forall i, length (f i) = m) ->
  rows_of n m (flat_map f (seq a n)) = map f (seq a n).
Proof.
  intros Hf. revert a. induction n as [|n IH]; intros a; [reflexivity|].
  cbn [seq flat_map rows_of map].
  rewrite take_app_length' by done. rewrite drop_app_length' by done.
  by rewrite IH.
Qed.

Lemma off_diagonal_zeros (i a n : nat) (v : R) :
  (i < a)%nat -> map (fun j => if i =? j then v else 0) (seq a n) = replicate n 0.
Proof.
  revert a. induction n as [|n IH]; intros a Hi; [reflexivity|].
  cbn [seq map replicate]. rewrite IH by lia.
  destruct (Nat.eqb_spec i a); [lia|done].
Qed.

Lemma diagonal_row (i a n : nat) (v : R) :
  (a <= i < a + n)%nat ->
  map (fun j => if i =? j then v else 0) (seq a n)
  = replicate (i - a) 0 ++ v :: replicate (a + n - S i) 0.
Proof.
  revert a. induction n as [|n IH]; intros a Hi; [lia|].
  cbn [seq map]. destruct (Nat.eqb_spec i a) as [->|Hne].
  - rewrite Nat.sub_diag, off_diagonal_zeros by lia. cbn [replicate app].
    do 2 f_equal. lia.
  - rewrite IH by lia. replace (i - a)%nat with (S (i - S a)) by lia.
    cbn [replicate app]. do 4 f_equal. lia.
Qed.

Lemma rows_of_diag (ss : list R) :
  let N := length ss in
  rows_of N N (t_data (tensor_diag (z_pow2 (vector ss))))
  = imap (fun i s => replicate (0 + i) 0 ++ s * s :: replicate (N - S (0 + i)) 0) ss.
Proof.
  intros N. unfold tensor_diag, z_pow2, vector.
  cbn [t_shape t_data numel foldr]. rewrite Nat.mul_1_r. fold N.
  rewrite rows_of_flat_map by (intros i; by rewrite length_map, length_seq).
  apply list_eq. intros i. rewrite list_lookup_fmap, list_lookup_imap.
  destruct (ss !! i) as [s|] eqn:Hs.
  - pose proof (lookup_lt_Some _ _ _ Hs) as Hi. fold N in Hi.
    rewrite lookup_seq_lt by done. cbn [fmap option_fmap option_map Nat.add].
    rewrite diagonal_row by lia. rewrite Nat.sub_0_r. do 3 f_equal.
    change (fun v : R => v * v) with (square (F := R)).
    rewrite (nth_indep _ 0 (square 0)) by (rewrite length_map; fold N; lia).
    rewrite map_nth. cbn [square backend]. f_equal; by apply nth_lookup_Some.
  - pose proof (lookup_ge_None_1 _ _ Hs) as Hi. fold N in Hi.
    by rewrite lookup_seq_ge.
Qed.

Lemma penalties_sum (vs ms ss : list R) :
  length ms = length ss -> length vs = length ss -> Forall (fun s => 0 < s) ss ->
  let y := zip_with Rdiv (zip_with Rminus vs ms) ss in
  INR (length ms) / 2 * ln (2 * PI) + fold_right (fun s acc => ln s + acc) 0 ss + dot y y / 2
  = gaussian_penalties vs ms ss.
Proof.
  revert vs ms. induction ss as [|s ss IH]; intros [|v vs] [|m ms] Hm Hv Hpos;
    simpl in Hm, Hv; try lia.
  - simpl. lra.
  - apply Forall_cons in Hpos as [Hs Hpos].
    specialize (IH vs ms ltac:(lia) ltac:(lia) Hpos). cbn zeta in IH.
    cbn [zip_with dot fold_right gaussian_penalties]. rewrite <- IH.
    change (length (m :: ms)) with (S (length ms)). rewrite S_INR. field. lra.
Qed.

Lemma cholesky_diag (ss : list R) :
  Forall (fun s => 0 < s) ss ->
  cholesky (rows_of (length ss) (length ss) (t_data (tensor_diag (z_pow2 (vector ss)))))
  = imap (fun i s => replicate (0 + i) 0 ++ [s]) ss.
Proof.
  intros Hpos. rewrite rows_of_diag. unfold cholesky.
  rewrite (cholesky_diag_from ss (fun i => replicate (length ss - S i) 0) 0 []); [done| |done].
  eapply Forall_impl; [exact Hpos|]. intros s Hs. simpl in Hs. lra.
Qed.

Lemma log_normal_diag (loc cov x : Tensor R) (ss : list R) :
  t_data cov = t_data (tensor_diag (z_pow2 (vector ss))) ->
  length (t_data loc) = length ss -> length (t_data x) = length ss ->
  Forall (fun s => 0 < s) ss ->
  log_normal loc cov x = - gaussian_penalties (t_data x) (t_data loc) ss.
Proof.
  intros Hc Hm Hv Hpos. unfold log_normal. cbn zeta.
  rewrite Hc, Hm, cholesky_diag by done.
  unfold forward. rewrite (forward_diag_from ss _ [] 0) by done.
  rewrite sum_ln_diag_rows. cbn [app]. rewrite <- Hm.
  f_equal. by apply penalties_sum.
Qed.

(** With a vector [sigma] of positive entries, one per parameter, the
    constraint is built and its value, in exact arithmetic, is the sum over
    [i] of [log(2 pi)/2 + log sigma_i + (x_i - mu_i)^2 / (2 sigma_i^2)], at
    the current values of [x], [mu] and [sigma]: the entries of [sigma] are
    standard deviations and the parameters are independent. *)
Theorem vector_sigma_gives_independent_penalties (xs : list (Numerical R))
    (ms : list ZfitParameter) (sg : list (Numerical R)) (w0 w : World R) :
  length xs = length ms -> length sg = length ms ->
  Forall (fun a => 0 < numerical_value w a) sg ->
  exists c w1,
    GaussianConstraint (Sequence xs) (Sequence ms)
                       {| a_shape := [length sg]; a_items := sg |} w0 = (inr c, w1) /\
    value (c, w)
    = (inr (scalar (gaussian_penalties (map (numerical_value w) xs)
                                       (map (fun p => param_value w (p_id p)) ms)
                                       (map (numerical_value w) sg))),
       (c, advance 1 w)).
Proof.
  intros Hx Hs Hpos. eexists _, _. split.
  - rewrite run_GaussianConstraint. cbn [convert_to_container].
    rewrite Hx, Nat.eqb_refl. reflexivity.
  - cbn [convert_to_container]. rewrite run_value_gaussian by done.
    unfold covariance_result, sizes_agree, built_covariance.
    cbn [sigma_tensor t_shape a_shape a_items covariance_dims fst snd].
    rewrite Hx, Hs, !Nat.eqb_refl. cbn [andb mvn_check mvn_log_prob backend].
    unfold tensor_neg, scalar. cbn [t_shape t_data map negate backend]. do 4 f_equal.
    rewrite (log_normal_diag _ _ _ (map (numerical_value w) sg)).
    + unfold holders_tensor, params_tensor, vector. cbn [t_data].
      rewrite values_obs_holders, map_map by done. cbn [numerical_value]. lra.
    + unfold tensor_diag, z_pow2, vector. cbn [t_shape t_data].
      by rewrite length_map, Hs.
    + unfold params_tensor. cbn [t_data]. by rewrite !length_map.
    + unfold holders_tensor, vector. cbn [t_data].
      by rewrite length_map, length_obs_holders, length_map, Hs.
    + by apply Forall_fmap.
Qed.

(** With one parameter and a positive scalar [sigma], the covariance is
    the 1 x 1 matrix [sigma^2] and the value, in exact arithmetic, is
    [log(2 pi)/2 + log sigma + (x - mu)^2 / (2 sigma^2)], at the current
    values of [x], [mu] and [sigma]. *)
Theorem scalar_sigma_is_a_standard_deviation (xv : Numerical R) (p : ZfitParameter)
    (sa : Numerical R) (w0 w : World R) :
  let v := numerical_value w xv in
  let m := param_value w (p_id p) in
  let s := numerical_value w sa in
  0 < s ->
  exists c w1,
    GaussianConstraint (Sequence [xv]) (Sequence [p]) {| a_shape := []; a_items := [sa] |} w0
    = (inr c, w1) /\
    covariance (c, w) = (inr {| t_shape := [1; 1]%nat; t_data := [s * s] |}, (c, w)) /\
    value (c, w)
    = (inr (scalar (ln (2 * PI) / 2 + ln s + (v - m) * (v - m) / (2 * (s * s)))),
       (c, advance 1 w)).
Proof.
  intros v m s Hs. eexists _, _. split.
  { rewrite run_GaussianConstraint. cbn [convert_to_container length Nat.eqb]. reflexivity. }
  split; [reflexivity|].
  rewrite run_value_gaussian by done.
  cbn [length covariance_result sizes_agree covariance_dims sigma_tensor t_shape a_shape
       fst snd Nat.eqb andb built_covariance mvn_check mvn_log_prob backend].
  unfold tensor_neg, scalar. cbn [t_shape t_data map negate backend]. do 4 f_equal.
  etransitivity; [apply f_equal, (log_normal_1d m s v Hs)|]. lra.
Qed.

(** The scalar case at [x = [5]], [mu = [p0]] with [p0 = 5], and
    [sigma = 2]. *)
Lemma scalar_sigma_witness :
  exists c w1,
    GaussianConstraint (Sequence (numbers [5])) (Sequence [p0]) (sigma_scalar 2) w5
    = (inr c, w1) /\
    covariance (c, w5) = (inr {| t_shape := [1; 1]%nat; t_data := [2 * 2] |}, (c, w5)) /\
    value (c, w5)
    = (inr (scalar (ln (2 * PI) / 2 + ln 2 + (5 - 5) * (5 - 5) / (2 * (2 * 2)))),
       (c, advance 1 w5)).
Proof.
  apply (scalar_sigma_is_a_standard_deviation (Number 5) p0 (Number 2) w5 w5).
  simpl. lra.
Defined.

(** The vector case at the constraint of the scenario. *)
Lemma vector_sigma_witness :
  exists c w1,
    GaussianConstraint (Sequence (numbers [1; 2])) (Sequence [p0; p1]) (sigma_vector [1; 1]) w12
    = (inr c, w1) /\
    value (c, w_two)
    = (inr (scalar (gaussian_penalties [1; 2] [1; 2] [1; 1])), (c, advance 1 w_two)).
Proof.
  apply (vector_sigma_gives_independent_penalties (numbers [1; 2]) [p0; p1] (numbers [1; 1])
                                                  w12 w_two eq_refl eq_refl).
  repeat constructor; simpl; lra.
Defined.

End Independent.

(** ** The further properties at concrete inputs *)

Section Instances.
Import Ideal Examples.
Local Open Scope R_scope.

(** The keywords of the call at the constraint of the scenario. *)
Lemma gaussian_distribution_keywords_witness :
  distribution (c_two, w_two)
  = lift (MultivariateNormalFullCovariance
            [("loc", AParams [p0; p1]);
             ("covariance_matrix", ATensor (tensor_diag (z_pow2 (vector [1; 1]))));
             ("validate_args", ABool true);
             ("name", AStr "GaussianConstraint_tfp")])
         (c_two, w_two).
Proof.
  exact (proj1 (gaussian_distribution_keywords
                  (Sequence (numbers [1; 2])) (Sequence [p0; p1]) (sigma_vector [1; 1])
                  w12 c_two w_two w_two eq_refl)
               (tensor_diag (z_pow2 (vector [1; 1]))) eq_refl).
Defined.

(** [loc] given in both dicts. *)
Lemma repeated_keyword_witness :
  exists c w1,
    DistributionConstraint (Sequence (numbers [1])) (param_slots [p0])
                           MultivariateNormalFullCovariance
                           (Mapping [("loc", ATensor (vector [1]))])
                           (Some (Mapping [("loc", ATensor (vector [2]))])) w0
    = (inr c, w1) /\
    exists msg, distribution (c, w1) = (inl (TypeError msg), (c, w1)).
Proof.
  eexists _, _. split; [reflexivity|].
  apply (distribution_refuses_repeated_keywords
           (Sequence (numbers [1])) (param_slots [p0]) MultivariateNormalFullCovariance
           [("loc", ATensor (vector [1]))] [("loc", ATensor (vector [2]))] w0 _ _ _ eq_refl).
  left. exists "loc". split; [by eexists | by left].
Defined.

(** A [sigma] of length 3 for two parameters: the failure of [covariance]
    is the failure of [value()] and of [sample(3)]. *)
Lemma failures_witness :
  let c := gaussian_obj (numbers [1; 2]) [p0; p1] (sigma_vector [1; 1; 1]) 0 in
  let failure :=
    ShapeIncompatibleError
      "x, mu and sigma have to have the same length. Currentlyx: 2, mu: 2, covariance (from sigma): (3, 3)" in
  value (c, w_two) = (inl failure, (c, w_two)) /\
  sample 3 (c, w_two) = (inl failure, (c, w_two)).
Proof.
  intros c failure.
  exact (proj1 (distribution_failures_reach_the_caller c w_two 3 (or_intror eq_refl))
               failure (c, w_two) eq_refl).
Defined.

(** The size of the covariance at the constraint of the scenario. *)
Lemma covariance_size_witness :
  let cov := tensor_diag (z_pow2 (vector [1; 1])) in
  (c_two, w_two) = (c_two, w_two) /\
  length (numbers [1; 2]) = 2%nat /\
  t_shape cov !! 0%nat = Some 2%nat /\ t_shape cov !! 1%nat = Some 2%nat.
Proof.
  exact (covariance_has_the_size_of_mu
           (Sequence (numbers [1; 2])) (Sequence [p0; p1]) (sigma_vector [1; 1])
           w12 c_two w_two w_two (tensor_diag (z_pow2 (vector [1; 1]))) (c_two, w_two)
           eq_refl eq_refl).
Defined.

(** A [sigma] of shape 2 x 2 x 1 for two parameters. *)
Lemma higher_rank_witness :
  let sigma := {| a_shape := [2; 2; 1]%nat; a_items := numbers [1; 0; 0; 1] |} in
  let c := gaussian_obj (numbers [1; 2]) [p0; p1] sigma 0 in
  covariance (c, w_two)
  = (inr {| t_shape := [2; 2; 1]%nat; t_data := [1; 0; 0; 1] |}, (c, w_two)).
Proof.
  intros sigma c.
  exact (sigma_of_higher_rank_is_passed_through
           (Sequence (numbers [1; 2])) (Sequence [p0; p1]) sigma w12 c w_two w_two [1%nat]
           eq_refl eq_refl).
Defined.


(** The observed values [1] and the parameter [p1], read where [p1] is 2. *)
Lemma x_array_witness :
  let hs := [{| h_id := 0; h_name := "a_obs"; h_source := Number 1 |};
             {| h_id := 1; h_name := "b_obs"; h_source := Param p1 |}] in
  let self := set_x hs (set_base {| b_name := "SamplableConstraint"; b_dtype := ztypes_float;
                                    b_params := param_slots [p0; p1] |}
                                 (empty_obj cls_SamplableConstraint)) in
  _x_array (self, w_two) = (inr {| t_shape := [2]%nat; t_data := [1; 2] |}, (self, w_two)).
Proof.
  intros hs self.
  exact (x_array_reads_current_observations
           (Sequence [Number 1; Param p1]) (param_slots [p0; p1]) "SamplableConstraint"
           ztypes_float (empty_obj cls_SamplableConstraint) w12 self w_two self w_two
           eq_refl eq_refl).
Defined.

(** Three draws for the constraint of the scenario. *)
Lemma gaussian_sample_witness :
  let h0 := {| h_id := 0; h_name := "a_obs"; h_source := Number 1 |} in
  let h1 := {| h_id := 1; h_name := "b_obs"; h_source := Number 2 |} in
  let draw := {| t_shape := [3; 2]%nat; t_data := [1; 2; 1; 2; 1; 2] |} in
  sample 3 (c_two, w_two)
  = (inr [(h0, {| t_shape := [3]%nat; t_data := map (fun r => entry 0 draw r 0) (seq 0 3) |});
          (h1, {| t_shape := [3]%nat; t_data := map (fun r => entry 0 draw r 1) (seq 0 3) |})],
     (c_two, {| param_value := param_value w_two; next_id := 3; rng := 1 |})).
Proof.
  intros h0 h1 draw.
  exact (gaussian_sample_is_drawn_around_mu
           (Sequence (numbers [1; 2])) (Sequence [p0; p1]) (sigma_vector [1; 1])
           w12 c_two w_two w_two 3 draw eq_refl eq_refl eq_refl eq_refl eq_refl).
Defined.

(** Two observed values and a distribution of another width: with a
    normal in three dimensions the draw has three columns, the dict has the
    first two and the third is dropped; with a normal in one dimension the
    draw has one column and [sample(2)] fails. *)
Lemma sample_columns_witness :
  let h0 := {| h_id := 0; h_name := "a_obs"; h_source := Number 1 |} in
  let h1 := {| h_id := 1; h_name := "b_obs"; h_source := Number 2 |} in
  let constraint loc cov :=
    set_dist {| _distribution := MultivariateNormalFullCovariance;
                dist_params := Mapping [("loc", ATensor loc); ("covariance_matrix", ATensor cov)];
                dist_kwargs := Mapping [] |}
             (set_x [h0; h1]
                    (set_base {| b_name := "DistributionConstraint"; b_dtype := ztypes_float;
                                 b_params := param_slots [p0; p1] |}
                              (empty_obj cls_DistributionConstraint))) in
  let wide := constraint (vector [7; 8; 9])
                         {| t_shape := [3; 3]%nat; t_data := [1; 0; 0; 0; 1; 0; 0; 0; 1] |} in
  let narrow := constraint (vector [7]) {| t_shape := [1; 1]%nat; t_data := [1] |} in
  let draw3 := {| t_shape := [2; 3]%nat; t_data := [7; 8; 9; 7; 8; 9] |} in
  let w' := {| param_value := param_value w_two; next_id := 3; rng := 1 |} in
  sample 2 (wide, w_two)
  = (inr [(h0, {| t_shape := [2]%nat; t_data := map (fun r => entry 0 draw3 r 0) (seq 0 2) |});
          (h1, {| t_shape := [2]%nat; t_data := map (fun r => entry 0 draw3 r 1) (seq 0 2) |})],
     (wide, w')) /\
  exists e, sample 2 (narrow, w_two) = (inl e, (narrow, w')).
Proof.
  intros h0 h1 constraint wide narrow draw3 w'.
  pose (built := set_x [h0; h1]
                       (set_base {| b_name := "DistributionConstraint"; b_dtype := ztypes_float;
                                    b_params := param_slots [p0; p1] |}
                                 (empty_obj cls_DistributionConstraint))).
  split.
  - exact (proj2 (sample_takes_one_column_per_holder
                    (Sequence (numbers [1; 2])) (param_slots [p0; p1]) "DistributionConstraint"
                    ztypes_float (empty_obj cls_DistributionConstraint) w12 built
                    w_two wide w_two 2 3 draw3 w' eq_refl eq_refl eq_refl eq_refl)
                 (Nat.le_succ_diag_r 2)).
  - exact (proj1 (sample_takes_one_column_per_holder
                    (Sequence (numbers [1; 2])) (param_slots [p0; p1]) "DistributionConstraint"
                    ztypes_float (empty_obj cls_DistributionConstraint) w12 built
                    w_two narrow w_two 2 1 {| t_shape := [2; 1]%nat; t_data := [7; 7] |} w'
                    eq_refl eq_refl eq_refl eq_refl)
                 (Nat.lt_succ_diag_r 1)).
Defined.

(** A distribution constraint on the multivariate normal with the 2 x 2
    identity as covariance. *)
Lemma distribution_value_witness :
  let identity := {| t_shape := [2; 2]%nat; t_data := [1; 0; 0; 1] |} in
  exists c w1,
    DistributionConstraint (Sequence (numbers [1; 2])) (param_slots [p0; p1])
                           MultivariateNormalFullCovariance
                           (Mapping [("loc", AParams [p0; p1]);
                                     ("covariance_matrix", ATensor identity)])
                           (Some (Mapping [("validate_args", ABool true)])) w12
    = (inr c, w1) /\
    value (c, w1)
    = (inr (tensor_neg (scalar (log_normal (vector [1; 2]) identity (vector [1; 2])))),
       (c, advance 1 w1)).
Proof.
  intros identity. eexists _, _. split; [reflexivity|].
  eapply (distribution_constraint_value
            (Sequence (numbers [1; 2])) (param_slots [p0; p1]) MultivariateNormalFullCovariance
            [("loc", AParams [p0; p1]); ("covariance_matrix", ATensor identity)]
            [("validate_args", ABool true)] w12).
  - reflexivity.
  - repeat constructor.
  - reflexivity.
  - cbn. reflexivity.
  - reflexivity.
Defined.


End Instances.
